(** * A shallow embedding of the download-task tracker

    Sources embedded here:
    - [app/models/schemas.py]            the request and task records,
    - [app/services/download_service.py] the task registry, the
      [ProgressReporter], [initiate_download_task], [perform_download]
      and [get_download_status],
    - [app/api/v1/endpoints/downloads.py] the [start_download] and
      [get_downloaded_file] handlers.

    Conventions.  A Python [str] is the [string] of the bytes of its
    UTF-8 encoding; [Optional[T]] is [option T]; a Python [float] is a
    binary64 [float]; the dictionary [download_tasks] is a
    [gmap string DownloadTask.t].  Readings of
    [datetime.utcnow()] and of [uuid.uuid4()] are inputs of the operation
    that makes them.  The records of [download_tasks] are mutated in
    place through the key they are stored under, which is rendered as an
    update of the map at that key. *)

From Stdlib Require Import PrimFloat ZArith Ascii String Sorted.
From stdpp Require Import gmap strings list fin_maps.

Open Scope string_scope.

(** ** Python helpers on strings *)

(** Truthiness of an [Optional[str]]: [None] and the empty string are
    falsy. *)
Definition truthy (o : option string) : bool :=
  match o with
  | Some (String _ _) => true
  | _ => false
  end.

(** [s.rfind(c)], as an option (Python answers [-1] where this answers
    [None]). *)
Fixpoint rfind (c : ascii) (s : string) : option nat :=
  match s with
  | EmptyString => None
  | String a s' =>
      match rfind c s' with
      | Some i => Some (S i)
      | None => if Ascii.eqb a c then Some 0 else None
      end
  end.

Definition py_rfind (c : ascii) (s : string) : Z :=
  match rfind c s with
  | Some i => Z.of_nat i
  | None => (-1)%Z
  end.

(** The slice [s[n:]]. *)
Fixpoint drop_chars (n : nat) (s : string) : string :=
  match n, s with
  | O, _ => s
  | S _, EmptyString => EmptyString
  | S n', String _ s' => drop_chars n' s'
  end.

(** Does the string hold the character? *)
Fixpoint has_char (c : ascii) (s : string) : bool :=
  match s with
  | EmptyString => false
  | String a s' => Ascii.eqb a c || has_char c s'
  end.

Definition sep : ascii := "/"%char.

(** [posixpath.basename]: [i = p.rfind('/') + 1; return p[i:]]. *)
Definition basename (p : string) : string :=
  let i := (py_rfind sep p + 1)%Z in
  drop_chars (Z.to_nat i) p.

(** A POSIX path is absolute when it starts with the separator. *)
Definition isabs (p : string) : bool :=
  match p with
  | String a _ => Ascii.eqb a sep
  | EmptyString => false
  end.

(** ** The schemas of [app/models/schemas.py] *)

Definition datetime := Z.

Module DownloadRequest.
Record t := mk {
  url : string;
  format : option string;
  quality : option string;
  browserForCookies : option string;
  proxy : option string;
}.
End DownloadRequest.

Module Progress.
Record t := mk {
  percent : float;
  eta : string;
  speed : string;
  status_message : string;
}.
End Progress.

Module FormatInfo.
Record t := mk {
  format_id : option string;
  ext : option string;
  resolution : option string;
  vcodec : option string;
  acodec : option string;
  description : option string;
  filesize : option float;
}.
End FormatInfo.

Module MediaInfo.
Record t := mk {
  title : option string;
  id : option string;
  thumbnail : option string;
  duration : option Z;
  uploader : option string;
  extractor : option string;
  available_formats : list FormatInfo.t;
  webpage_url : option string;
  is_playlist : option bool;
  playlist_count : option Z;
}.
End MediaInfo.

Module DownloadTask.
Record t := mk {
  id : string;
  url : string;
  format : option string;
  quality : option string;
  browser : option string;
  status : string;
  progress : Progress.t;
  info : option MediaInfo.t;
  filepath : option string;
  error : option string;
  startTime : datetime;
  endTime : option datetime;
}.

(** [task.status = s] *)
Definition assign_status (s : string) (task : t) : t :=
  mk (id task) (url task) (format task) (quality task) (browser task)
     s (progress task) (info task) (filepath task) (error task)
     (startTime task) (endTime task).

(** [task.progress.percent = ...; task.progress.eta = ...; ...] *)
Definition assign_progress (p : Progress.t) (task : t) : t :=
  mk (id task) (url task) (format task) (quality task) (browser task)
     (status task) p (info task) (filepath task) (error task)
     (startTime task) (endTime task).

(** The four assignments of [ProgressReporter.set_status]. *)
Definition assign_outcome (s : string) (err fp : option string)
    (now : datetime) (task : t) : t :=
  mk (id task) (url task) (format task) (quality task) (browser task)
     s (progress task) (info task) fp err
     (startTime task) (Some now).
End DownloadTask.

(** The module-level dictionary [download_tasks]. *)
Abbreviation registry := (gmap string DownloadTask.t).

(** ** [ProgressReporter] *)

Module ProgressReporter.

(** [update_progress]: looks the task up by id; when it is there the
    four fields of its [progress] are overwritten with the arguments.
    [task.progress] is a [Progress] by the type of the schema, so the
    [isinstance] repair branch is never taken. *)
Definition update_progress (task_id : string) (percent : float)
    (eta speed status_message : string) (download_tasks : registry)
    : registry :=
  match download_tasks !! task_id with
  | Some task =>
      <[task_id :=
          DownloadTask.assign_progress
            (Progress.mk percent eta speed status_message) task]>
        download_tasks
  | None => download_tasks
  end.

(** [set_status]: looks the task up by id; when it is there, status and
    error are overwritten, [filepath] becomes the base name of the
    argument (or [None] when the argument is falsy), and [endTime]
    becomes the current time. *)
Definition set_status (task_id : string) (status : string)
    (error filepath : option string) (now : datetime)
    (download_tasks : registry) : registry :=
  match download_tasks !! task_id with
  | Some task =>
      let fp :=
        if truthy filepath then basename <$> filepath else None in
      <[task_id := DownloadTask.assign_outcome status error fp now task]>
        download_tasks
  | None => download_tasks
  end.

End ProgressReporter.

(** [get_download_status] *)
Definition get_download_status (task_id : string)
    (download_tasks : registry) : option DownloadTask.t :=
  download_tasks !! task_id.

(** A record is terminal when its status is [completed] or [failed]. *)
Definition terminal (task : DownloadTask.t) : bool :=
  String.eqb (DownloadTask.status task) "completed"
  || String.eqb (DownloadTask.status task) "failed".

(** ** More of Python's [str]: [strip], [replace], [os.path.join] *)

(** The white space [str.strip()] removes is that of [str.isspace]: the
    code points U+0009..U+000D, U+001C..U+0020, U+0085, U+00A0, U+1680,
    U+2000..U+200A, U+2028, U+2029, U+202F, U+205F and U+3000.  In UTF-8
    the first ten are one byte each, the next two are two bytes, and the
    others three. *)

(** The white space of one byte: tab, line feed, vertical tab, form feed,
    carriage return, the four separators 28..31, and space. *)
Definition is_space (c : ascii) : bool :=
  let n := nat_of_ascii c in
  ((9 <=? n)%nat && (n <=? 13)%nat) || ((28 <=? n)%nat && (n <=? 32)%nat).

(** U+0085 is [C2 85] and U+00A0 is [C2 A0]. *)
Definition is_space2 (c1 c2 : ascii) : bool :=
  let n2 := N_of_ascii c2 in
  N.eqb (N_of_ascii c1) 194 && (N.eqb n2 133 || N.eqb n2 160).

(** U+1680 is [E1 9A 80]; U+2000..U+200A are [E2 80 80] to [E2 80 8A];
    U+2028, U+2029 and U+202F are [E2 80 A8], [E2 80 A9] and [E2 80 AF];
    U+205F is [E2 81 9F]; U+3000 is [E3 80 80]. *)
Definition is_space3 (c1 c2 c3 : ascii) : bool :=
  let n1 := N_of_ascii c1 in
  let n2 := N_of_ascii c2 in
  let n3 := N_of_ascii c3 in
  (N.eqb n1 225 && N.eqb n2 154 && N.eqb n3 128)
  || (N.eqb n1 226 && N.eqb n2 128
      && ((N.leb 128 n3 && N.leb n3 138)
          || N.eqb n3 168 || N.eqb n3 169 || N.eqb n3 175))
  || (N.eqb n1 226 && N.eqb n2 129 && N.eqb n3 159)
  || (N.eqb n1 227 && N.eqb n2 128 && N.eqb n3 128).

(** [s.lstrip()]: the white space at the start goes, one code point after
    the other. *)
Fixpoint lstrip (s : string) : string :=
  match s with
  | String c1 s1 =>
      if is_space c1 then lstrip s1
      else
        match s1 with
        | String c2 s2 =>
            if is_space2 c1 c2 then lstrip s2
            else
              match s2 with
              | String c3 s3 => if is_space3 c1 c2 c3 then lstrip s3 else s
              | EmptyString => s
              end
        | EmptyString => s
        end
  | EmptyString => EmptyString
  end.

(** Is the string made of white space only? *)
Fixpoint all_space (s : string) : bool :=
  match s with
  | String c1 s1 =>
      if is_space c1 then all_space s1
      else
        match s1 with
        | String c2 s2 =>
            if is_space2 c1 c2 then all_space s2
            else
              match s2 with
              | String c3 s3 => is_space3 c1 c2 c3 && all_space s3
              | EmptyString => false
              end
        | EmptyString => false
        end
  | EmptyString => true
  end.

(** [s.rstrip()]: the string is cut where only white space follows.  (No
    white space starts with a continuation byte, so the cut falls between
    two code points.) *)
Fixpoint rstrip (s : string) : string :=
  match s with
  | String c s' => if all_space s then EmptyString else String c (rstrip s')
  | EmptyString => EmptyString
  end.

(** [s.strip()] *)
Definition strip (s : string) : string := rstrip (lstrip s).

(** [s.replace(c, '')] for a one-character [c]. *)
Fixpoint remove_char (c : ascii) (s : string) : string :=
  match s with
  | String a s' =>
      if Ascii.eqb a c then remove_char c s' else String a (remove_char c s')
  | EmptyString => EmptyString
  end.

(** [s.endswith('/')] *)
Fixpoint ends_with_sep (s : string) : bool :=
  match s with
  | EmptyString => false
  | String a EmptyString => Ascii.eqb a sep
  | String _ s' => ends_with_sep s'
  end.

(** [posixpath.join(a, b)] *)
Definition path_join (a b : string) : string :=
  if isabs b then b
  else if String.eqb a "" || ends_with_sep a then a ++ b
  else a ++ "/" ++ b.

(** ** Exceptions and the monad of [perform_download] *)

(** The exceptions of the model are instances of [Exception]:
    [yt_dlp.DownloadError] and every other subclass, each with its
    [str(e)].  (Classes that derive from [BaseException] only, such as
    [KeyboardInterrupt], are not handled by [except Exception] and are
    not part of the model.) *)
Inductive exn :=
| DownloadError (msg : string)
| OtherException (msg : string).

(** [str(e)] *)
Definition str_exn (e : exn) : string :=
  match e with
  | DownloadError msg => msg
  | OtherException msg => msg
  end.

Inductive outcome (A : Type) :=
| Return (a : A)
| Raise (e : exn).
Arguments Return {A} a.
Arguments Raise {A} e.

(** The state the service works on: the dictionary, the coroutines handed
    to [asyncio.create_task], and a journal of the successive contents of
    the dictionary, one entry per write, oldest first.  The journal records
    the order of the writes.  What a reader of the dictionary can see is
    less: a status query reads one content of the dictionary, and two
    queries read contents that follow each other in the journal (or the
    same one), with any number of entries skipped in between. *)
Record world := World {
  tasks : registry;
  scheduled : list (string * DownloadRequest.t);
  journal : list registry;
}.

Definition M (A : Type) : Type := world -> outcome A * world.

Definition ret {A} (a : A) : M A := fun w => (Return a, w).

Definition bind {A B} (m : M A) (k : A -> M B) : M B :=
  fun w =>
    match m w with
    | (Return a, w') => k a w'
    | (Raise e, w') => (Raise e, w')
    end.

Definition raise {A} (e : exn) : M A := fun w => (Raise e, w).

(** [try: m  except Exception as e: h e] *)
Definition try_except {A} (m : M A) (h : exn -> M A) : M A :=
  fun w =>
    match m w with
    | (Return a, w') => (Return a, w')
    | (Raise e, w') => h e w'
    end.

(** One write to the dictionary, entered in the journal. *)
Definition write (f : registry -> registry) : M unit :=
  fun w =>
    let r := f (tasks w) in
    (Return tt, World r (scheduled w) (journal w ++ [r])).

Definition lookup_task (task_id : string) : M (option DownloadTask.t) :=
  fun w => (Return (tasks w !! task_id), w).

(** Lifting a value or an exception of a library call. *)
Definition lift {A} (o : outcome A) : M A := fun w => (o, w).

#[export] Instance M_ret : MRet M := @ret.
#[export] Instance M_bind : MBind M := fun A B k m => bind m k.

(** ** The library calls the service makes *)

(** What the embedding takes from Python's libraries: the substitution
    [ansi_escape.sub('', s)] of the compiled regular expression, the
    conversion [float(s)] (which raises [ValueError] on a malformed
    string), and pydantic's [HttpUrl] validation, which answers the string
    form of the URL or rejects the input.  Nothing is taken for granted
    about the three; a statement that needs a fact about one of them
    (such as what the validation does with the empty string) has it as a
    hypothesis. *)
Class Library := {
  ansi_escape_sub : string -> string;
  py_float : string -> outcome float;
  http_url : string -> option string;
}.

(** The dictionary [d] that yt-dlp passes to a progress hook, by the keys
    the service reads.  [d_requested_downloads] holds, for every element
    of [d['requested_downloads']], its ['filepath'] entry when it has
    one. *)
Record hook_dict := HookDict {
  d_status : string;
  d_percent_str : option string;
  d_eta_str : option string;
  d_speed_str : option string;
  d_filename : option string;
  d_filepath : option string;
  d_requested_downloads : option (list (option string));
}.

(** One run of the collaborator, as [perform_download] sees it.
    - [ydl_enter]: the exception of [yt_dlp.YoutubeDL(ydl_opts)] or of
      [__enter__], when there is one;
    - [ydl_hooks]: the calls that [ydl.download] makes to the progress
      hook, in order, each with the reading of the clock during the call;
    - [ydl_download]: the exception [ydl.download] ends with after those
      calls, when there is one;
    - [ydl_predicted]: the result of [ydl.extract_info(url,
      download=False)] followed by [ydl.prepare_filename];
    - [path_exists]: [os.path.exists];
    - [ydl_exit]: the exception of [__exit__], when there is one. *)
Record YoutubeDL := {
  ydl_enter : option exn;
  ydl_hooks : list (hook_dict * datetime);
  ydl_download : option exn;
  ydl_predicted : outcome string;
  path_exists : string -> bool;
  ydl_exit : option exn;
}.

(** ** [app/services/download_service.py] *)

Section Service.
Context `{Library}.

(** [str(settings.DOWNLOAD_DIR)] *)
Variable DOWNLOAD_DIR : string.

(** [ansi_escape.sub('', percent_raw).replace('%', '').strip()] *)
Definition percent_cleaned_of (d : hook_dict) : string :=
  strip (remove_char "%" (ansi_escape_sub (default "N/A" (d_percent_str d)))).

(** The closure [progress_hook] of [perform_download].  Its [nonlocal]
    variable [final_info_dict] is threaded through: the call receives the
    current value and answers the new one. *)
Definition progress_hook (task_id : string) (d : hook_dict) (now : datetime)
    (final_info_dict : option hook_dict) : M (option hook_dict) :=
  if String.eqb (d_status d) "downloading" then
    let percent_cleaned := percent_cleaned_of d in
    percent ←
      (if negb (String.eqb percent_cleaned "N/A")
          && negb (String.eqb percent_cleaned "")
       then lift (py_float percent_cleaned)
       else mret 0%float);
    let eta := strip (default "N/A" (d_eta_str d)) in
    let speed := strip (default "N/A" (d_speed_str d)) in
    write (ProgressReporter.update_progress task_id percent eta speed
             ("Downloading: " ++ default "N/A" (d_filename d) ++ " "
                ++ percent_cleaned ++ "%"));;
    mret final_info_dict
  else if String.eqb (d_status d) "finished" then
    write (ProgressReporter.set_status task_id "post-processing" None None now);;
    mret (Some d)
  else mret final_info_dict.

(** The hook calls of one [ydl.download], in order; an exception of the
    hook leaves through the library call. *)
Fixpoint call_hooks (task_id : string) (calls : list (hook_dict * datetime))
    (final_info_dict : option hook_dict) : M (option hook_dict) :=
  match calls with
  | [] => mret final_info_dict
  | (d, now) :: rest =>
      final_info_dict' ← progress_hook task_id d now final_info_dict;
      call_hooks task_id rest final_info_dict'
  end.

(** [await asyncio.to_thread(ydl.download, [str(request.url)])] *)
Definition download (task_id : string) (ydl : YoutubeDL) : M (option hook_dict) :=
  final_info_dict ← call_hooks task_id (ydl_hooks ydl) None;
  match ydl_download ydl with
  | Some e => raise e
  | None => mret final_info_dict
  end.

(** The last resort of the path resolution: the inner [try] that
    predicts the file name and tests that the file is there. *)
Definition predict_path (ydl : YoutubeDL) : option string :=
  match ydl_predicted ydl with
  | Return predicted_filename =>
      let downloaded_file_full_path :=
        path_join DOWNLOAD_DIR predicted_filename in
      if path_exists ydl downloaded_file_full_path
      then Some downloaded_file_full_path
      else None
  | Raise _ => None
  end.

(** The three strategies for [downloaded_file_full_path].  A first
    element of [requested_downloads] without a ['filepath'] key raises
    [KeyError('filepath')]. *)
Definition final_path (ydl : YoutubeDL) (final_info_dict : option hook_dict)
    : M (option string) :=
  match final_info_dict with
  | Some d =>
      if truthy (d_filepath d) then mret (d_filepath d)
      else
        match d_requested_downloads d with
        | Some (first :: _) =>
            match first with
            | Some p => mret (Some p)
            | None => raise (OtherException "'filepath'")
            end
        | _ => mret (predict_path ydl)
        end
  | None => mret (predict_path ydl)
  end.

(** Leaving a [with] statement whose body ended in [o]: [__exit__] runs
    whether the body returned or raised, and an exception of [__exit__]
    takes the place of either. *)
Definition leaving {A} (exit : option exn) (o : outcome A) : outcome A :=
  match exit with
  | Some e => Raise e
  | None => o
  end.

(** [with yt_dlp.YoutubeDL(ydl_opts) as ydl: body].  [YoutubeDL.__exit__]
    answers [None], so an exception of the body goes on when [__exit__]
    itself raises nothing. *)
Definition with_ydl {A} (ydl : YoutubeDL) (body : M A) : M A :=
  match ydl_enter ydl with
  | Some e => raise e
  | None =>
      fun w =>
        let (o, w') := body w in
        (leaving (ydl_exit ydl) o, w')
  end.

Definition unresolved_message : string :=
  "Could not determine final downloaded file path after completion.".

(** The body of the [try] statement of [perform_download]. *)
Definition download_and_report (task_id : string) (ydl : YoutubeDL)
    (now : datetime) : M unit :=
  with_ydl ydl
    (final_info_dict ← download task_id ydl;
     downloaded_file_full_path ← final_path ydl final_info_dict;
     if truthy downloaded_file_full_path then
       write (ProgressReporter.set_status task_id "completed" None
                downloaded_file_full_path now)
     else raise (OtherException unresolved_message)).

(** [perform_download].  The options handed to the collaborator are built
    from the request by dictionary assignments that cannot raise; the
    collaborator's run [ydl] stands for its behaviour under them.
    [now_done] and [now_failed] are the readings of the clock in the
    [set_status] calls of the [try] body and of the handlers.  The two
    handlers, for [yt_dlp.DownloadError] and for [Exception], make the same
    report and differ in the text they log. *)
Definition perform_download (task_id : string) (request : DownloadRequest.t)
    (ydl : YoutubeDL) (now_done now_failed : datetime) : M unit :=
  task ← lookup_task task_id;
  match task with
  | None => mret tt
  | Some _ =>
      write (alter (DownloadTask.assign_status "downloading") task_id);;
      try_except (download_and_report task_id ydl now_done)
        (fun e =>
           match e with
           | DownloadError _ =>
               write (ProgressReporter.set_status task_id "failed"
                        (Some (str_exn e)) None now_failed)
           | OtherException _ =>
               write (ProgressReporter.set_status task_id "failed"
                        (Some (str_exn e)) None now_failed)
           end)
  end.

(** [asyncio.create_task(perform_download(task_id, request))] *)
Definition create_task (task_id : string) (request : DownloadRequest.t)
    : M unit :=
  fun w =>
    (Return tt,
     World (tasks w) (scheduled w ++ [(task_id, request)]) (journal w)).

(** The record [initiate_download_task] stores. *)
Definition queued_task (task_id : string) (request : DownloadRequest.t)
    (now : datetime) : DownloadTask.t :=
  DownloadTask.mk task_id
    (DownloadRequest.url request)
    (DownloadRequest.format request)
    (DownloadRequest.quality request)
    (DownloadRequest.browserForCookies request)
    "queued"
    (Progress.mk 0%float "N/A" "N/A" "Queued")
    None None None now None.

(** [initiate_download_task]; [uuid4] is the reading of
    [str(uuid.uuid4())] and [now] that of [datetime.utcnow()]. *)
Definition initiate_download_task (uuid4 : string) (now : datetime)
    (request : DownloadRequest.t) : M string :=
  let task_id := uuid4 in
  write (insert task_id (queued_task task_id request now));;
  create_task task_id request;;
  mret task_id.

End Service.

(** ** [app/api/v1/endpoints/downloads.py] *)

(** How a handler ends: with a response that has a status code, with a
    raised [HTTPException], or with any other exception, which leaves the
    handler and which the server answers with 500 Internal Server
    Error. *)
Inductive response (A : Type) :=
| Respond (status_code : Z) (body : A)
| HTTPException (status_code : Z) (detail : string)
| Unhandled (e : exn).
Arguments Respond {A} status_code body.
Arguments HTTPException {A} status_code detail.
Arguments Unhandled {A} e.

(** The status code the client reads. *)
Definition status_code_of {A} (r : response A) : Z :=
  match r with
  | Respond status_code _ => status_code
  | HTTPException status_code _ => status_code
  | Unhandled _ => 500
  end.

(** The JSON body sent to [/start], before validation: a key is absent
    ([None]) or carries a string or [null]. *)
Module StartBody.
Record t := mk {
  url : option string;
  format : option (option string);
  quality : option (option string);
  browserForCookies : option (option string);
  proxy : option (option string);
}.
End StartBody.

Module DownloadInitiatedResponse.
Record t := mk {
  status : string;
  message : string;
  task_id : string;
  status_websocket_url : string;
}.
End DownloadInitiatedResponse.

Module DownloadStatusResponse.
Record t := mk {
  status : string;
  task : DownloadTask.t;
}.
End DownloadStatusResponse.

Section Endpoints.
Context `{Library}.

(** The validation of the body against [DownloadRequest]: [url] is
    required and must be an [HttpUrl]; the other fields have defaults. *)
Definition validate_request (body : StartBody.t) : option DownloadRequest.t :=
  raw ← StartBody.url body;
  u ← http_url raw;
  Some (DownloadRequest.mk u
          (default (Some "mp4") (StartBody.format body))
          (default (Some "bestvideo+bestaudio/best") (StartBody.quality body))
          (default None (StartBody.browserForCookies body))
          (default None (StartBody.proxy body))).

(** The handler [start_download], on a validated request. *)
Definition start_download (uuid4 : string) (now : datetime)
    (request : DownloadRequest.t) (w : world)
    : response DownloadInitiatedResponse.t * world :=
  if String.eqb (DownloadRequest.url request) "" then
    (HTTPException 400 "URL is required.", w)
  else
    match initiate_download_task uuid4 now request w with
    | (Return task_id, w') =>
        (Respond 202
           (DownloadInitiatedResponse.mk "accepted" "Download initiated"
              task_id ("/ws/status/" ++ task_id)),
         w')
    | (Raise e, w') => (HTTPException 500 (str_exn e), w')
    end.

(** The route [POST /start]: the framework validates the body, answers
    422 when it is rejected, and calls the handler otherwise. *)
Definition post_start (uuid4 : string) (now : datetime) (body : StartBody.t)
    (w : world) : response DownloadInitiatedResponse.t * world :=
  match validate_request body with
  | None => (HTTPException 422 "Unprocessable Entity", w)
  | Some request => start_download uuid4 now request w
  end.

(** The handler of [GET /status/{task_id}]. *)
Definition status_endpoint (task_id : string) (w : world)
    : response DownloadStatusResponse.t :=
  match get_download_status task_id (tasks w) with
  | None => HTTPException 404 "Task not found."
  | Some task =>
      Respond 200 (DownloadStatusResponse.mk (DownloadTask.status task) task)
  end.

End Endpoints.

(** The part of [pathlib] and of the file system that artifact retrieval
    uses: [dir / name], [str(p)], [p.is_file()] and [p.resolve()].
    [is_file] answers [False] for a name that is not there, and raises the
    [OSError] of [stat] for a name the system refuses, as it does for a
    component that is too long.  [resolve] is called without [strict]; it
    is reached only after [is_file] answered [True] for the path, that is
    after the system has followed the path to a regular file, and is taken
    to answer. *)
Class Pathlib := {
  Path : Type;
  joinpath : Path -> string -> Path;
  path_str : Path -> string;
  is_file : Path -> outcome bool;
  resolve : Path -> Path;
}.

(** What [get_downloaded_file] does besides answering, in order: the
    accesses to the file system, the log records, and the opening of the
    file that a [FileResponse] leads to. *)
Inductive effect `{Pathlib} :=
| FsIsFile (p : Path)
| FsResolve (p : Path)
| Log (level : string) (msg : string)
| OpenFile (p : Path).

(** The [FileResponse] of a served file. *)
Record FileResponse `{Pathlib} := {
  fr_path : Path;
  fr_filename : string;
  fr_media_type : string;
}.

Section Retrieval.
Context `{Pathlib}.

(** [settings.DOWNLOAD_DIR] *)
Variable DOWNLOAD_DIR : Path.

(** The guard of [get_downloaded_file]:
    [str(resolved_file_path).startswith(str(settings.DOWNLOAD_DIR.resolve()))]. *)
Definition traversal_guard (file_path : Path) : bool :=
  String.prefix (path_str (resolve DOWNLOAD_DIR)) (path_str (resolve file_path)).

(** [get_downloaded_file].  The handler has no [try] statement: an
    exception of [is_file] leaves it. *)
Definition get_downloaded_file (filename : string)
    : response FileResponse * list effect :=
  let file_path := joinpath DOWNLOAD_DIR filename in
  match is_file file_path with
  | Raise e => (Unhandled e, [FsIsFile file_path])
  | Return found =>
      if negb found then
        (HTTPException 404 "File not found.",
         [FsIsFile file_path;
          Log "WARNING" ("Requested file not found: " ++ filename)])
      else if negb (traversal_guard file_path) then
        (HTTPException 400 "Invalid file path.",
         [FsIsFile file_path; FsResolve file_path; FsResolve DOWNLOAD_DIR;
          Log "ERROR" ("Attempted path traversal detected: " ++ filename)])
      else
        (Respond 200
           {| fr_path := file_path; fr_filename := filename;
              fr_media_type := "application/octet-stream" |},
         [FsIsFile file_path; FsResolve file_path; FsResolve DOWNLOAD_DIR;
          Log "INFO" ("Serving file: " ++ filename);
          OpenFile file_path])
  end.

(** The file-system accesses among the effects. *)
Definition is_fs_access (e : effect) : bool :=
  match e with
  | FsIsFile _ | FsResolve _ | OpenFile _ => true
  | Log _ _ => false
  end.

Definition opens_file (e : effect) : bool :=
  match e with
  | OpenFile _ => true
  | _ => false
  end.

End Retrieval.

(** ** Instances for the examples *)

(** *** A file system without symbolic links *)

(** [s.split('/')] *)
Fixpoint split_sep (s : string) : list string :=
  match s with
  | EmptyString => [EmptyString]
  | String a s' =>
      if Ascii.eqb a sep then EmptyString :: split_sep s'
      else
        match split_sep s' with
        | part :: parts => String a part :: parts
        | [] => [String a EmptyString]
        end
  end.

(** ['/'.join(parts)] *)
Fixpoint join_sep (parts : list string) : string :=
  match parts with
  | [] => EmptyString
  | [part] => part
  | part :: rest => part ++ "/" ++ join_sep rest
  end.

(** The parts [pathlib] keeps of a path: the empty ones and ['.'] go. *)
Definition pure_parts (s : string) : list string :=
  filter (fun part => part ≠ "" ∧ part ≠ ".") (split_sep s).

(** The root [pathlib] reads off a POSIX path: exactly two leading
    slashes are kept, any other number of them is one. *)
Definition posix_root (s : string) : string :=
  if String.prefix "//" s && negb (String.prefix "///" s) then "//"
  else if isabs s then "/"
  else "".

(** [str(PurePosixPath(s))] *)
Definition pure_path (s : string) : string :=
  match posix_root s, pure_parts s with
  | EmptyString, [] => "."
  | root, parts => root ++ join_sep parts
  end.

(** [str(PurePosixPath(dir) / name)]: an absolute [name] replaces [dir]. *)
Definition pure_joinpath (dir name : string) : string :=
  if isabs name then pure_path name else pure_path (dir ++ "/" ++ name).

(** Resolution of the parts of an absolute path where no part is a
    symbolic link: ['..'] drops the part before it, and stays at the
    root. [done] holds the resolved parts, last first. *)
Fixpoint resolve_parts (done parts : list string) : list string :=
  match parts with
  | [] => rev done
  | part :: rest =>
      if String.eqb part ".." then resolve_parts (tail done) rest
      else resolve_parts (part :: done) rest
  end.

(** [str(Path(p).resolve())] from the working directory [cwd]. *)
Definition lexical_resolve (cwd p : string) : string :=
  let full := if isabs p then p else cwd ++ "/" ++ p in
  posix_root full ++ join_sep (resolve_parts [] (pure_parts full)).

(** The directories above a file, by their parts: the root first. *)
Fixpoint parents (parts : list string) : list (list string) :=
  match parts with
  | [] => []
  | part :: rest => [] :: (cons part <$> parents rest)
  end.

(** The directories of the file system whose regular files are [files]:
    the root and the directories above the files. *)
Definition directories (files : list string) : list (list string) :=
  [] :: (files ≫= (fun file => parents (pure_parts file))).

(** The longest name of a directory entry, in bytes ([NAME_MAX]). *)
Definition NAME_MAX : nat := 255.

(** The walk [stat] makes along the parts of an absolute path, from the
    directory [done] (its parts, last first): every part is looked up in
    the directory reached so far, which has to be there; a part longer
    than [NAME_MAX] is refused with [ENAMETOOLONG]; ['..'] leads to the
    directory above.  The walk answers whether it went through. *)
Fixpoint walk (dirs : list (list string)) (done parts : list string)
    : outcome bool :=
  match parts with
  | [] => Return true
  | part :: rest =>
      if negb (bool_decide (rev done ∈ dirs)) then Return false
      else if (NAME_MAX <? String.length part)%nat then
        Raise (OtherException "[Errno 36] File name too long")
      else if String.eqb part ".." then walk dirs (tail done) rest
      else walk dirs (part :: done) rest
  end.

(** [Path(p).is_file()] from the working directory [cwd]: the walk, then
    the test that what it arrived at is a regular file. *)
Definition posix_is_file (cwd : string) (files : list string) (p : string)
    : outcome bool :=
  let full := if isabs p then p else cwd ++ "/" ++ p in
  match walk (directories files) [] (pure_parts full) with
  | Return true => Return (bool_decide (lexical_resolve cwd p ∈ files))
  | other => other
  end.

(** The file system whose regular files are [files] (absolute, resolved
    names), without symbolic links, seen from the directory [cwd]. *)
Definition posix_fs (cwd : string) (files : list string) : Pathlib := {|
  Path := string;
  joinpath := pure_joinpath;
  path_str := fun p => p;
  is_file := posix_is_file cwd files;
  resolve := lexical_resolve cwd;
|}.

(** A name of 300 bytes: longer than a directory entry can be. *)
Definition long_name : string := string_of_list_ascii (repeat "a"%char 300).

(** *** Library functions on the strings of the examples *)

Definition digit_of (c : ascii) : option float :=
  match c with
  | "0"%char => Some 0%float | "1"%char => Some 1%float
  | "2"%char => Some 2%float | "3"%char => Some 3%float
  | "4"%char => Some 4%float | "5"%char => Some 5%float
  | "6"%char => Some 6%float | "7"%char => Some 7%float
  | "8"%char => Some 8%float | "9"%char => Some 9%float
  | _ => None
  end.

(** Reads [digits] or [digits.digits]: [acc] is the number read so far
    as an integer, [scale] the power of ten of the digits after the
    point, when the point was met. *)
Fixpoint read_decimal (s : string) (acc : float) (scale : option float)
    : option float :=
  match s with
  | EmptyString =>
      Some (match scale with Some k => (acc / k)%float | None => acc end)
  | String c s' =>
      if Ascii.eqb c "."%char then
        match scale with
        | None => read_decimal s' acc (Some 1%float)
        | Some _ => None
        end
      else
        match digit_of c with
        | Some dg =>
            read_decimal s' (acc * 10 + dg)%float
              ((fun k => (k * 10)%float) <$> scale)
        | None => None
        end
  end.

(** [float(s)] on plain decimal numerals, with an optional minus sign;
    the numerals of the examples are short enough for the quotient to be
    the correctly rounded value. *)
Definition decimal_float (s : string) : outcome float :=
  let bad := OtherException ("could not convert string to float: '" ++ s ++ "'") in
  match s with
  | EmptyString | "." | "-" | "-." => Raise bad
  | String "-"%char s' =>
      match read_decimal s' 0%float None with
      | Some f => Return (- f)%float
      | None => Raise bad
      end
  | _ =>
      match read_decimal s 0%float None with
      | Some f => Return f
      | None => Raise bad
      end
  end.

(** Accepts a string that extends [http://] or [https://]. *)
Definition simple_http_url (s : string) : option string :=
  if (String.prefix "http://" s && (7 <? String.length s)%nat)
     || (String.prefix "https://" s && (8 <? String.length s)%nat)
  then Some s else None.

(** The library on strings that hold no escape character (where the
    regular expression of [perform_download] matches nothing) and on
    decimal numerals. *)
#[local] Instance plain_library : Library := {|
  ansi_escape_sub := fun s => s;
  py_float := decimal_float;
  http_url := simple_http_url;
|}.

(** *** Two runs of the collaborator *)

(** The run of the examples: one progress report at 50 percent, the end
    of the transfer, and a file found by the prediction of its name. *)
Definition sample_request : DownloadRequest.t :=
  DownloadRequest.mk "https://example.com/video1" (Some "audio")
    (Some "bestaudio/best") None None.

Definition sample_run : YoutubeDL := {|
  ydl_enter := None;
  ydl_hooks :=
    [(HookDict "downloading" (Some " 50.0%") (Some "00:10") (Some "1MiB/s")
        (Some "Song (x).webm") None None, 5%Z);
     (HookDict "finished" None None None (Some "Song (x).webm") None None,
      6%Z)];
  ydl_download := None;
  ydl_predicted := Return "/srv/app/downloads/Song (x).mp3";
  path_exists := fun _ => true;
  ydl_exit := None;
|}.

(** A run in which the collaborator raises an exception whose [str] is
    empty, as a bare [AssertionError()] has. *)
Definition silent_failure_run : YoutubeDL := {|
  ydl_enter := None;
  ydl_hooks := [];
  ydl_download := Some (OtherException "");
  ydl_predicted := Raise (OtherException "unused");
  path_exists := fun _ => false;
  ydl_exit := None;
|}.

(** ** Vocabulary of the statements *)

(** The fields a terminal report fixes. *)
Definition terminal_fields (task : DownloadTask.t)
    : string * option string * option string * option datetime :=
  (DownloadTask.status task, DownloadTask.error task,
   DownloadTask.filepath task, DownloadTask.endTime task).

(** The registries the service can build: every write it makes to
    [download_tasks] is one of these five, with arguments of any value. *)
Inductive reachable : registry -> Prop :=
| reach_empty : reachable ∅
| reach_initiate r task_id request now :
    reachable r ->
    reachable (<[task_id := queued_task task_id request now]> r)
| reach_downloading r task_id :
    reachable r ->
    reachable (alter (DownloadTask.assign_status "downloading") task_id r)
| reach_update_progress r task_id percent eta speed status_message :
    reachable r ->
    reachable (ProgressReporter.update_progress task_id percent eta speed
                 status_message r)
| reach_set_status r task_id status error filepath now :
    reachable r ->
    reachable (ProgressReporter.set_status task_id status error filepath
                 now r).


(** Their order: queued, then downloading, then post-processing, then the
    two terminal ones. *)
Definition status_rank (s : string) : nat :=
  if String.eqb s "queued" then 0
  else if String.eqb s "downloading" then 1
  else if String.eqb s "post-processing" then 2
  else 3.

Definition rank_le (a b : string) : Prop := (status_rank a <= status_rank b)%nat.

(** The statuses of the record under [task_id] along a journal. *)
Definition statuses_of (task_id : string) (js : list registry) : list string :=
  omap (fun r : registry => DownloadTask.status <$> r !! task_id) js.



(** A job from its submission to the end of its background unit. *)
Definition lifecycle `{Library} (DOWNLOAD_DIR : string) (uuid4 : string)
    (request : DownloadRequest.t) (ydl : YoutubeDL)
    (now_start now_done now_failed : datetime) (w : world) : world :=
  let w1 := (initiate_download_task uuid4 now_start request w).2 in
  (perform_download DOWNLOAD_DIR uuid4 request ydl now_done now_failed w1).2.

(** [a], then the statuses [l], ending in [b]: every step keeps or raises
    the rank, and every status of [l] satisfies [P]. *)
Inductive chain (P : string -> Prop) : string -> list string -> string -> Prop :=
| chain_nil a : chain P a [] a
| chain_cons a x l b :
    rank_le a x -> P x -> chain P x l b -> chain P a (x :: l) b.

(** The statuses of a job whose background unit is running. *)
Definition in_flight (s : string) : Prop :=
  s = "downloading" ∨ s = "post-processing".

(** The statuses the [try] body of [perform_download] can leave behind. *)
Definition in_try (s : string) : Prop := in_flight s ∨ s = "completed".

(** From [w] to [w'] the record under [task_id] stays in the registry,
    the journal grows, and the statuses the new entries show for the
    record form a chain from its status in [w] to its status in [w']. *)
Definition advances (P : string -> Prop) (task_id : string) (w w' : world)
    : Prop :=
  ∃ task task' js,
    tasks w !! task_id = Some task
    ∧ tasks w' !! task_id = Some task'
    ∧ journal w' = (journal w ++ js)%list
    ∧ chain P (DownloadTask.status task) (statuses_of task_id js)
        (DownloadTask.status task').


(** The status and the end time of the record under [task_id] along a
    journal. *)
Definition status_and_end_of (task_id : string) (js : list registry)
    : list (string * option datetime) :=
  omap (fun r : registry =>
          (fun task => (DownloadTask.status task, DownloadTask.endTime task))
            <$> r !! task_id) js.

(** Containment of one resolved path in a directory, by components:
    the path is the directory or continues it after a separator. *)
Definition path_within (dir p : string) : bool :=
  String.eqb dir p || String.prefix (dir ++ "/") p.

(** ** Vocabulary of the further statements *)

(** From [w] to [w'] nothing changes but the record under [task_id]: the
    scheduled units and every other record are the same, the record is
    there afterwards exactly when it was there before, and [R] relates
    what it was to what it is. *)
Definition touches_only (R : DownloadTask.t -> DownloadTask.t -> Prop)
    (task_id : string) (w w' : world) : Prop :=
  scheduled w' = scheduled w
  ∧ (∀ other, other ≠ task_id -> tasks w' !! other = tasks w !! other)
  ∧ match tasks w !! task_id with
    | Some task => ∃ task', tasks w' !! task_id = Some task' ∧ R task task'
    | None => tasks w' !! task_id = None
    end.

(** The fields of a record that come from the request. *)
Definition request_fields (task : DownloadTask.t)
    : string * string * option string * option string * option string
      * option MediaInfo.t * datetime :=
  (DownloadTask.id task, DownloadTask.url task, DownloadTask.format task,
   DownloadTask.quality task, DownloadTask.browser task,
   DownloadTask.info task, DownloadTask.startTime task).

Definition same_request (task task' : DownloadTask.t) : Prop :=
  request_fields task = request_fields task'.

(** Does the hook return on the dictionary [d]?  It raises only when
    [float] rejects the cleaned percentage of a ['downloading'] call. *)
Definition hook_returns `{Library} (d : hook_dict) : bool :=
  if String.eqb (d_status d) "downloading"
     && negb (String.eqb (percent_cleaned_of d) "N/A")
     && negb (String.eqb (percent_cleaned_of d) "")
  then
    match py_float (percent_cleaned_of d) with
    | Return _ => true
    | Raise _ => false
    end
  else true.

(** The dictionary of the last ['finished'] call among [calls], or
    [init] when there is none. *)
Definition last_finished (calls : list (hook_dict * datetime))
    (init : option hook_dict) : option hook_dict :=
  foldl (fun acc call =>
           if String.eqb (d_status call.1) "downloading" then acc
           else if String.eqb (d_status call.1) "finished" then Some call.1
           else acc)
    init calls.

(** The world [perform_download] hands to the [try] body. *)
Definition started (task_id : string) (w : world) : world :=
  (write (alter (DownloadTask.assign_status "downloading") task_id) w).2.

(** The path the three strategies of [perform_download] arrive at, or the
    exception they raise; the registry plays no part in it. *)
Definition chosen_path `{Library} (DOWNLOAD_DIR : string) (ydl : YoutubeDL)
    (final_info_dict : option hook_dict) : outcome (option string) :=
  (final_path DOWNLOAD_DIR ydl final_info_dict (World ∅ [] [])).1.

(** The dictionary kept from the hook calls reports no path: it has no
    truthy ['_filepath'] and no non-empty ['requested_downloads']. *)
Definition no_reported_path (final_info_dict : option hook_dict) : bool :=
  match final_info_dict with
  | None => true
  | Some d =>
      negb (truthy (d_filepath d))
      && match d_requested_downloads d with
         | None | Some [] => true
         | Some (_ :: _) => false
         end
  end.

(** *** Further runs of the collaborator, for the examples *)

(** The registry after one submission. *)
Definition queued_world : world :=
  (initiate_download_task "id-1" 1%Z sample_request (World ∅ [] [])).2.

(** The ['finished'] call reports the final path itself. *)
Definition reported_path_run : YoutubeDL := {|
  ydl_enter := None;
  ydl_hooks :=
    [(HookDict "finished" None None None (Some "Song (x).webm")
        (Some "/srv/app/downloads/Song (x).mp3") None, 6%Z)];
  ydl_download := None;
  ydl_predicted := Raise (OtherException "unused");
  path_exists := fun _ => false;
  ydl_exit := None;
|}.

(** The first requested download of the ['finished'] call has no
    ['filepath'] key. *)
Definition keyless_run : YoutubeDL := {|
  ydl_enter := None;
  ydl_hooks :=
    [(HookDict "finished" None None None (Some "Song (x).webm") None
        (Some [None]), 6%Z)];
  ydl_download := None;
  ydl_predicted := Return "/srv/app/downloads/Song (x).mp3";
  path_exists := fun _ => true;
  ydl_exit := None;
|}.

(** The predicted file is not on disk. *)
Definition missing_file_run : YoutubeDL := {|
  ydl_enter := None;
  ydl_hooks := ydl_hooks sample_run;
  ydl_download := None;
  ydl_predicted := Return "/srv/app/downloads/Song (x).webm";
  path_exists := fun _ => false;
  ydl_exit := None;
|}.

(** The collaborator raises when it is closed. *)
Definition exit_failure_run : YoutubeDL := {|
  ydl_enter := None;
  ydl_hooks := ydl_hooks sample_run;
  ydl_download := None;
  ydl_predicted := ydl_predicted sample_run;
  path_exists := path_exists sample_run;
  ydl_exit := Some (OtherException "cannot close");
|}.

(** The second progress text is not a number. *)
Definition bad_percent_run : YoutubeDL := {|
  ydl_enter := None;
  ydl_hooks :=
    [(HookDict "downloading" (Some " 50.0%") (Some "00:10") (Some "1MiB/s")
        (Some "Song (x).webm") None None, 5%Z);
     (HookDict "downloading" (Some "Unknown%") None None
        (Some "Song (x).webm") None None, 6%Z);
     (HookDict "finished" None None None (Some "Song (x).webm") None None,
      7%Z)];
  ydl_download := None;
  ydl_predicted := ydl_predicted sample_run;
  path_exists := path_exists sample_run;
  ydl_exit := None;
|}.

(** ** [extract_media_info] and the handler of [/extract_info] *)

(** Truthiness of an optional number: [None] and zero are falsy. *)
Definition truthy_number (o : option float) : bool :=
  match o with
  | Some x => negb (PrimFloat.eqb x 0%float)
  | None => false
  end.

(** [a or b] on optional strings and on optional numbers. *)
Definition str_or (a b : option string) : option string :=
  if truthy a then a else b.

Definition number_or (a b : option float) : option float :=
  if truthy_number a then a else b.

(** An element of [info['formats']], by the keys the service reads; a key
    that is absent or holds [None] is [None]. *)
Record format_dict := FormatDict {
  fd_format_id : option string;
  fd_ext : option string;
  fd_resolution : option string;
  fd_vcodec : option string;
  fd_acodec : option string;
  fd_format_note : option string;
  fd_format : option string;
  fd_filesize : option float;
  fd_filesize_approx : option float;
}.

(** The dictionary [ydl.extract_info] answers, by the keys the service
    reads, with values of the types of the schema; the entries of a
    playlist are kept by their ids. *)
Record info_dict := InfoDict {
  i_title : option string;
  i_id : option string;
  i_thumbnail : option string;
  i_duration : option Z;
  i_uploader : option string;
  i_extractor : option string;
  i_formats : option (list format_dict);
  i_webpage_url : option string;
  i_entries : option (list string);
}.

(** The test of the loop over the formats:
    [f.get('vcodec') != 'none' or (f.get('acodec') != 'none' and f.get('filesize'))]. *)
Definition relevant (f : format_dict) : bool :=
  bool_decide (fd_vcodec f ≠ Some "none")
  || (bool_decide (fd_acodec f ≠ Some "none") && truthy_number (fd_filesize f)).

(** The dictionary appended for a format, as the [FormatInfo] it
    becomes. *)
Definition format_info_of (f : format_dict) : FormatInfo.t :=
  FormatInfo.mk (fd_format_id f) (fd_ext f) (fd_resolution f) (fd_vcodec f)
    (fd_acodec f)
    (str_or (fd_format_note f) (fd_format f))
    (number_or (fd_filesize f) (fd_filesize_approx f)).

Definition relevant_formats (info : info_dict) : list FormatInfo.t :=
  match i_formats info with
  | Some (f :: formats) => format_info_of <$> filter relevant (f :: formats)
  | _ => []
  end.

(** The [MediaInfo] the service builds from the dictionary. *)
Definition media_info_of (info : info_dict) : MediaInfo.t :=
  let has_entries :=
    match i_entries info with
    | Some (_ :: _) => true
    | _ => false
    end in
  MediaInfo.mk (i_title info) (i_id info) (i_thumbnail info)
    (i_duration info) (i_uploader info) (i_extractor info)
    (relevant_formats info) (i_webpage_url info)
    (Some has_entries)
    (if has_entries
     then Some (Z.of_nat (length (default [] (i_entries info))))
     else None).

(** One run of the collaborator, as [extract_media_info] sees it: the
    exception of [yt_dlp.YoutubeDL(ydl_opts)] or of [__enter__], what
    [ydl.extract_info(url, download=False)] answers or raises, and the
    exception of [__exit__], when there is one. *)
Record InfoRun := {
  info_enter : option exn;
  info_result : outcome info_dict;
  info_exit : option exn;
}.

(** [extract_media_info].  The [try] statement lies inside the [with]
    statement: the two handlers turn the exceptions of the body into a
    [ValueError]; those of entering and leaving pass as they are, and one
    of leaving takes the place of what the body returned or raised. *)
Definition extract_media_info (run : InfoRun) : outcome MediaInfo.t :=
  match info_enter run with
  | Some e => Raise e
  | None =>
      let body :=
        match info_result run with
        | Return info => Return (media_info_of info)
        | Raise (DownloadError msg) =>
            Raise (OtherException ("Failed to extract info: " ++ msg))
        | Raise (OtherException msg) =>
            Raise (OtherException
                     ("Failed to extract info due to an internal error: "
                        ++ msg))
        end in
      leaving (info_exit run) body
  end.

Module InfoResponse.
Record t := mk {
  status : string;
  info : MediaInfo.t;
}.
End InfoResponse.

(** The handler [extract_info] of [POST /extract_info]. *)
Definition extract_info (run : InfoRun) : response InfoResponse.t :=
  match extract_media_info run with
  | Return info => Respond 200 (InfoResponse.mk "success" info)
  | Raise e => HTTPException 500 ("Failed to extract info: " ++ str_exn e)
  end.

(** A video with three formats, for the examples: one with video, one
    audio track of known size, one audio track whose size is only
    estimated. *)
Definition sample_info : info_dict :=
  InfoDict (Some "Song") (Some "x") None (Some 212%Z) (Some "Band")
    (Some "youtube")
    (Some [FormatDict (Some "22") (Some "mp4") (Some "1280x720")
             (Some "avc1") (Some "mp4a") (Some "720p") (Some "22 - 1280x720")
             None (Some 1000%float);
           FormatDict (Some "140") (Some "m4a") (Some "audio only")
             (Some "none") (Some "mp4a") None (Some "140 - audio only")
             (Some 3400%float) None;
           FormatDict (Some "251") (Some "webm") (Some "audio only")
             (Some "none") (Some "opus") (Some "medium") None
             None (Some 3200%float)])
    (Some "https://example.com/video1") None.

(** ** The options [perform_download] hands to the collaborator *)

(** [s.lower()], on the ASCII letters. *)
Definition lower_char (c : ascii) : ascii :=
  let n := nat_of_ascii c in
  if (65 <=? n)%nat && (n <=? 90)%nat then ascii_of_nat (n + 32) else c.

Fixpoint lower (s : string) : string :=
  match s with
  | EmptyString => EmptyString
  | String c s' => String (lower_char c) (lower s')
  end.

(** [sub in s] *)
Fixpoint contains (sub s : string) : bool :=
  String.prefix sub s
  || match s with
     | EmptyString => false
     | String _ s' => contains sub s'
     end.

(** The values of the dictionary [ydl_opts]: strings, booleans, integers,
    the list with the progress hook, the logger, the one-element tuple of
    the browser, and the list of post-processor dictionaries. *)
Inductive opt_value :=
| OStr (s : string)
| OBool (b : bool)
| OInt (n : Z)
| OHooks
| OLogger (name : string)
| OTuple (items : list string)
| ODicts (items : list (gmap string string)).

Definition output_template : string := "%(title)s (%(id)s).%(ext)s".

(** [str(settings.DOWNLOAD_DIR / '%(title)s (%(id)s).%(ext)s')], for a
    directory in the form [pathlib] prints it. *)
Definition outtmpl (DOWNLOAD_DIR : string) : string :=
  path_join DOWNLOAD_DIR output_template.

(** The post-processor of an audio request. *)
Definition extract_audio_processor : gmap string string :=
  <["preferredquality" := "192"]>
    (<["preferredcodec" := "mp3"]> (<["key" := "FFmpegExtractAudio"]> ∅)).

(** The dictionary literal of [perform_download]. *)
Definition default_opts (ffmpeg_path DOWNLOAD_DIR : string)
    : gmap string opt_value :=
  list_to_map
    [("format", OStr "bestvideo+bestaudio/best");
     ("outtmpl", OStr (outtmpl DOWNLOAD_DIR));
     ("progress_hooks", OHooks);
     ("ffmpeg_location", OStr ffmpeg_path);
     ("merge_output_format", OStr "mp4");
     ("embed_metadata", OBool true);
     ("no_warnings", OBool true);
     ("quiet", OBool true);
     ("logger", OLogger "yt_dlp");
     ("retries", OInt 5);
     ("socket_timeout", OInt 30)].

(** The assignments of the three branches on [request.format]. *)
Definition audio_opts (quality DOWNLOAD_DIR : string)
    (opts : gmap string opt_value) : gmap string opt_value :=
  delete "merge_output_format"
    (<["postprocessors" := ODicts [extract_audio_processor]]>
       (<["outtmpl" := OStr (outtmpl DOWNLOAD_DIR)]>
          (<["audio_quality" := OStr "192K"]>
             (<["audio_format" := OStr "mp3"]>
                (<["extract_audio" := OBool true]>
                   (<["format" := OStr quality]> opts)))))).

Definition image_opts (DOWNLOAD_DIR : string)
    (opts : gmap string opt_value) : gmap string opt_value :=
  delete "merge_output_format"
    (<["outtmpl" := OStr (outtmpl DOWNLOAD_DIR)]>
       (<["skip_download" := OBool true]>
          (<["writethumbnail" := OBool true]>
             (<["format" := OStr "best"]> opts)))).

Definition video_opts (format quality : string)
    (opts : gmap string opt_value) : gmap string opt_value :=
  <["merge_output_format" := OStr format]>
    (<["format" := OStr (quality ++ "+bestaudio/bestvideo+bestaudio/best")]>
       opts).

(** [ydl_opts] as [perform_download] builds it; [ffmpeg_env] is
    [os.getenv("YTDLP_FFMPEG_LOCATION")]. *)
Definition ydl_opts_of (ffmpeg_env : option string) (DOWNLOAD_DIR : string)
    (request : DownloadRequest.t) : gmap string opt_value :=
  let ffmpeg_path :=
    if truthy ffmpeg_env then default "ffmpeg" ffmpeg_env else "ffmpeg" in
  let ydl_opts := default_opts ffmpeg_path DOWNLOAD_DIR in
  let ydl_opts :=
    if truthy (DownloadRequest.format request)
       && truthy (DownloadRequest.quality request)
    then
      let format := default "" (DownloadRequest.format request) in
      let quality := default "" (DownloadRequest.quality request) in
      if contains "audio" (lower format) then
        audio_opts quality DOWNLOAD_DIR ydl_opts
      else if String.eqb (lower format) "image" then
        image_opts DOWNLOAD_DIR ydl_opts
      else video_opts format quality ydl_opts
    else ydl_opts in
  let ydl_opts :=
    if truthy (DownloadRequest.browserForCookies request)
    then <["cookiesfrombrowser" :=
             OTuple [default "" (DownloadRequest.browserForCookies request)]]>
           ydl_opts
    else ydl_opts in
  if truthy (DownloadRequest.proxy request)
  then <["proxy" := OStr (default "" (DownloadRequest.proxy request))]> ydl_opts
  else ydl_opts.

(** ** The first version of the service: [downloader.py] and [app.py] *)

Module Legacy.

(** The values the dictionaries of the first version hold. *)
Inductive value :=
| VNone
| VStr (s : string)
| VNum (n : Z).

Definition of_str (o : option string) : value := from_option VStr VNone o.
Definition of_num (o : option Z) : value := from_option VNum VNone o.

(** [type(v).__name__] *)
Definition type_name (v : value) : string :=
  match v with
  | VNone => "NoneType"
  | VStr _ => "str"
  | VNum _ => "int"
  end.

(** The text of [KeyError(key)] for a key without quotes. *)
Definition key_error (key : string) : exn := OtherException ("'" ++ key ++ "'").

(** *** [downloader.py] *)

(** One call of [download_video], as the function sees it: whether the
    download directory is there and the exception of [os.makedirs] when
    it has to be made; the exceptions of entering and leaving
    [yt_dlp.YoutubeDL]; what [ydl.extract_info(url, download=True)] and
    [ydl.prepare_filename(info)] answer or raise. *)
Record Run := {
  dir_exists : bool;
  makedirs : option exn;
  enter : option exn;
  extracted : outcome info_dict;
  prepared : outcome string;
  leave : option exn;
}.

(** The dictionaries of the two handlers. *)
Definition error_result (e : exn) : gmap string value :=
  match e with
  | DownloadError msg =>
      list_to_map
        [("status", VStr "error");
         ("message", VStr ("Download Error: " ++ msg))]
  | OtherException msg =>
      list_to_map
        [("status", VStr "error");
         ("message", VStr ("An unexpected server error occurred: " ++ msg))]
  end.

Definition success_result (info : info_dict) (filepath : string)
    : gmap string value :=
  list_to_map
    [("status", VStr "success");
     ("title", of_str (i_title info));
     ("id", of_str (i_id info));
     ("filepath", VStr filepath);
     ("thumbnail", of_str (i_thumbnail info));
     ("duration", of_num (i_duration info));
     ("uploader", of_str (i_uploader info));
     ("extractor", of_str (i_extractor info))].

(** The body of the [with] statement of [download_video]. *)
Definition extract_and_prepare (run : Run) : outcome (gmap string value) :=
  match extracted run with
  | Raise e => Raise e
  | Return info =>
      match prepared run with
      | Raise e => Raise e
      | Return filepath => Return (success_result info filepath)
      end
  end.

(** [download_video].  The directory is made before the [try]; the
    [with] statement lies inside it, so that entering, the two calls and
    leaving are all under the handlers.  Leaving comes after the body,
    whether it returned or raised, and an exception of leaving is the one
    the handlers get. *)
Definition download_video (run : Run) : outcome (gmap string value) :=
  match (if dir_exists run then None else makedirs run) with
  | Some e => Raise e
  | None =>
      Return
        match enter run with
        | Some e => error_result e
        | None =>
            match leaving (leave run) (extract_and_prepare run) with
            | Return result => result
            | Raise e => error_result e
            end
        end
  end.

(** *** [app.py] *)

(** A value of the dictionary [download_tasks]: a dictionary with the
    four keys [status], [info], [filepath] and [error].  The file path is
    [None] or the string [os.path.basename] answered. *)
Record task := Task {
  status : string;
  info : option (gmap string value);
  filepath : option string;
  error : value;
}.

Definition pending : task := Task "pending" None None VNone.

(** The dictionary and the threads that were started. *)
Record world := World {
  download_tasks : gmap string task;
  threads : list (string * value * string);
}.

(** [perform_download_task]; the assignments to the task are made one
    after the other, so an exception leaves the earlier ones in place. *)
Definition perform_download_task (task_id : string) (run : Run)
    (tasks : gmap string task) : outcome unit * gmap string task :=
  match tasks !! task_id with
  | None => (Raise (key_error task_id), tasks)
  | Some t =>
      let t := Task "downloading" (info t) (filepath t) (error t) in
      let tasks := <[task_id := t]> tasks in
      match download_video run with
      | Raise e => (Raise e, tasks)
      | Return result =>
          let failed :=
            (Return tt,
             <[task_id :=
                 Task "failed" (info t) (filepath t)
                   (default (VStr "Unknown download error")
                      (result !! "message"))]> tasks) in
          if Nat.eqb (size result) 0 then failed
          else
            match result !! "status" with
            | None => (Raise (key_error "status"), tasks)
            | Some (VStr "success") =>
                let t :=
                  Task "completed" (Some (delete "filepath" result))
                    (filepath t) (error t) in
                let tasks := <[task_id := t]> tasks in
                match result !! "filepath" with
                | Some (VStr p) =>
                    (Return tt,
                     <[task_id :=
                         Task (status t) (info t) (Some (basename p))
                           (error t)]> tasks)
                | Some v =>
                    (Raise (OtherException
                              ("expected str, bytes or os.PathLike object, not "
                                 ++ type_name v)),
                     tasks)
                | None => (Raise (key_error "filepath"), tasks)
                end
            | Some _ => failed
            end
      end
  end.

(** What [jsonify] is given by [get_download_status]: strings, values of
    the task, and the dictionary of the metadata. *)
Inductive json :=
| JStr (s : string)
| JValue (v : value)
| JInfo (d : option (gmap string value)).

(** [get_download_status] of [app.py]: the status code and the body. *)
Definition get_download_status (task_id : string) (tasks : gmap string task)
    : Z * gmap string json :=
  match tasks !! task_id with
  | None => (404%Z, {[ "error" := JStr "Task ID not found" ]})
  | Some t =>
      let response_data : gmap string json :=
        <["status" := JStr (status t)]> {[ "task_id" := JStr task_id ]} in
      (200%Z,
       if String.eqb (status t) "completed" then
         <["info" := JInfo (info t)]>
           (<["download_link" :=
                JStr ("/downloaded/" ++ default "None" (filepath t))]>
              response_data)
       else if String.eqb (status t) "failed" then
         <["error" := JValue (error t)]> response_data
       else if String.eqb (status t) "downloading" then
         <["message" := JStr "Download in progress. Check back later."]>
           response_data
       else response_data)
  end.

(** [start_download] of [app.py]; [data] is [request.get_json()] and
    [uuid4] the reading of [str(uuid.uuid4())]. *)
Definition start_download (uuid4 : string)
    (data : option (gmap string value)) (w : world)
    : (Z * gmap string json) * world :=
  match data with
  | Some d =>
      if Nat.eqb (size d) 0 then
        ((400%Z, {[ "error" := JStr "URL is required" ]}), w)
      else
        match d !! "url" with
        | None => ((400%Z, {[ "error" := JStr "URL is required" ]}), w)
        | Some video_url =>
            let format_type := default (VStr "video") (d !! "format") in
            let task_id := uuid4 in
            let ydl_format_choice :=
              match format_type with
              | VStr "audio" => "bestaudio/best"
              | _ => "bestvideo+bestaudio/best"
              end in
            ((202%Z,
              list_to_map
                [("message", JStr "Download started");
                 ("task_id", JStr task_id);
                 ("status_check_url", JStr ("/status/" ++ task_id));
                 ("initial_status", JStr "pending")]),
             World (<[task_id := pending]> (download_tasks w))
               (threads w ++ [(task_id, video_url, ydl_format_choice)]))
        end
  | None => ((400%Z, {[ "error" := JStr "URL is required" ]}), w)
  end.

End Legacy.

(** * Properties *)

(** ** Base names *)

Lemma rfind_none_no_char c s : rfind c s = None -> has_char c s = false.
Proof.
  induction s as [|a s IH]; simpl; [done|].
  destruct (rfind c s) as [i|]; [done|].
  destruct (Ascii.eqb a c); [done|]. intros _. by apply IH.
Qed.

(** [basename] follows the recursion of [rfind]. *)
Lemma basename_cons a s :
  basename (String a s) =
    match rfind sep s with
    | Some _ => basename s
    | None => if Ascii.eqb a sep then s else String a s
    end.
Proof.
  unfold basename, py_rfind. simpl.
  destruct (rfind sep s) as [i|].
  - replace (Z.to_nat (Z.of_nat (S i) + 1)) with (S (Z.to_nat (Z.of_nat i + 1)))
      by lia.
    done.
  - destruct (Ascii.eqb a sep); done.
Qed.

Lemma basename_no_sep p : has_char sep (basename p) = false.
Proof.
  induction p as [|a p IH]; [done|].
  rewrite basename_cons.
  destruct (rfind sep p) as [i|] eqn:Hr; [done|].
  apply rfind_none_no_char in Hr.
  destruct (Ascii.eqb a sep) eqn:Ha; [done|].
  simpl. by rewrite Ha.
Qed.

Lemma no_sep_not_abs p : has_char sep p = false -> isabs p = false.
Proof.
  destruct p as [|a p]; simpl; [done|].
  by intros [? _]%orb_false_iff.
Qed.

(** ** The two methods of the reporter, field by field *)

Lemma update_progress_lookup (r : registry) task_id task percent eta speed msg :
  r !! task_id = Some task ->
  ProgressReporter.update_progress task_id percent eta speed msg r !! task_id
  = Some (DownloadTask.assign_progress (Progress.mk percent eta speed msg) task).
Proof.
  intros Hr. unfold ProgressReporter.update_progress.
  rewrite Hr. apply lookup_insert_eq.
Qed.

Lemma set_status_lookup (r : registry) task_id task status error filepath now :
  r !! task_id = Some task ->
  ProgressReporter.set_status task_id status error filepath now r !! task_id
  = Some (DownloadTask.assign_outcome status error
            (if truthy filepath then basename <$> filepath else None)
            now task).
Proof.
  intros Hr. unfold ProgressReporter.set_status.
  rewrite Hr. apply lookup_insert_eq.
Qed.

Lemma update_progress_other (r : registry) task_id other percent eta speed msg :
  task_id ≠ other ->
  ProgressReporter.update_progress task_id percent eta speed msg r !! other
  = r !! other.
Proof.
  intros Hne. unfold ProgressReporter.update_progress.
  destruct (r !! task_id); [by rewrite lookup_insert_ne|done].
Qed.

Lemma set_status_other (r : registry) task_id other status error filepath now :
  task_id ≠ other ->
  ProgressReporter.set_status task_id status error filepath now r !! other
  = r !! other.
Proof.
  intros Hne. unfold ProgressReporter.set_status.
  destruct (r !! task_id); [by rewrite lookup_insert_ne|done].
Qed.

(** The file path [set_status] stores holds no separator. *)
Lemma stored_filepath_no_sep (filepath : option string) name :
  (if truthy filepath then basename <$> filepath else None) = Some name ->
  has_char sep name = false.
Proof.
  destruct filepath as [p|]; simpl; [|done].
  destruct p; simpl; [done|].
  intros [= <-]. apply basename_no_sep.
Qed.

(** ** C1 *)

(** C1, as stated, fails: a [set_status] call on a record that is already
    [completed] is not a no-op; it overwrites the status, the error, the
    file path and the end time. *)
Lemma set_status_overwrites_terminal :
  let done :=
    DownloadTask.mk "t1" "https://example.com/v" None None None "completed"
      (Progress.mk 100%float "00:00" "N/A" "done") None (Some "a.mp4") None
      1%Z (Some 9%Z) in
  let r : registry := {[ "t1" := done ]} in
  terminal done = true ∧
  terminal_fields <$>
    (ProgressReporter.set_status "t1" "failed" (Some "late") None 12%Z r !! "t1")
  = Some ("failed", Some "late", None, Some 12%Z) ∧
  terminal_fields done = ("completed", None, Some "a.mp4", Some 9%Z).
Proof. vm_compute. done. Qed.

(** C1, amended: on a record that is [completed] or [failed],
    [update_progress] leaves status, error, file path and end time as they
    are, whereas [set_status] has no guard for terminal records and
    replaces the four fields with the status and error it is given, the
    base name of the path it is given, and the current time. *)
Theorem terminal_record_after_report (r : registry) task_id task :
  r !! task_id = Some task ->
  terminal task = true ->
  (∀ percent eta speed msg,
     terminal_fields <$>
       (ProgressReporter.update_progress task_id percent eta speed msg r
          !! task_id)
     = Some (terminal_fields task)) ∧
  (∀ status error filepath now,
     terminal_fields <$>
       (ProgressReporter.set_status task_id status error filepath now r
          !! task_id)
     = Some (status, error,
             if truthy filepath then basename <$> filepath else None,
             Some now)).
Proof.
  intros Hr _. split; intros.
  - by rewrite (update_progress_lookup _ _ _ _ _ _ _ Hr).
  - by rewrite (set_status_lookup _ _ _ _ _ _ _ Hr).
Qed.

Lemma terminal_record_after_report_witness :
  let done :=
    DownloadTask.mk "t1" "https://example.com/v" None None None "completed"
      (Progress.mk 100%float "00:00" "N/A" "done") None (Some "a.mp4") None
      1%Z (Some 9%Z) in
  terminal_fields <$>
    (ProgressReporter.update_progress "t1" 3%float "e" "s" "m"
       {[ "t1" := done ]} !! "t1")
  = Some (terminal_fields done).
Proof.
  intros done.
  apply (terminal_record_after_report {[ "t1" := done ]} "t1" done);
    reflexivity.
Defined.

(** ** C7 *)

(** C7, as stated, fails: a reported percentage above 100 or below 0 is
    stored as it is, and the report leaves the status [queued]. *)
Lemma update_progress_stores_any_percent :
  let r : registry :=
    {[ "t1" := queued_task "t1"
                 (DownloadRequest.mk "https://example.com/v" None None None None)
                 1%Z ]} in
  (∃ task,
     ProgressReporter.update_progress "t1" 150%float "N/A" "N/A" "m" r !! "t1"
     = Some task
     ∧ Progress.percent (DownloadTask.progress task) = 150%float
     ∧ PrimFloat.leb (Progress.percent (DownloadTask.progress task)) 100%float
       = false
     ∧ DownloadTask.status task = "queued") ∧
  (∃ task,
     ProgressReporter.update_progress "t1" (-5)%float "N/A" "N/A" "m" r !! "t1"
     = Some task
     ∧ PrimFloat.leb 0%float (Progress.percent (DownloadTask.progress task))
       = false).
Proof. split; eexists; vm_compute; done. Qed.

(** C7, amended: a progress report stores the percentage it is given,
    unchanged and unchecked, together with the three texts, and leaves the
    status of the record as it was. *)
Theorem update_progress_writes_report (r : registry) task_id task
    percent eta speed msg :
  r !! task_id = Some task ->
  ∃ task',
    ProgressReporter.update_progress task_id percent eta speed msg r !! task_id
    = Some task'
    ∧ DownloadTask.progress task' = Progress.mk percent eta speed msg
    ∧ DownloadTask.status task' = DownloadTask.status task.
Proof.
  intros Hr. eexists. split; [by apply update_progress_lookup|done].
Qed.

Lemma update_progress_writes_report_witness :
  ∃ task',
    ProgressReporter.update_progress "t1" 150%float "N/A" "N/A" "m"
      {[ "t1" := queued_task "t1"
                   (DownloadRequest.mk "https://example.com/v" None None None None)
                   1%Z ]} !! "t1"
    = Some task'
    ∧ DownloadTask.progress task' = Progress.mk 150%float "N/A" "N/A" "m"
    ∧ DownloadTask.status task' = "queued".
Proof.
  apply (update_progress_writes_report _ "t1"
           (queued_task "t1"
              (DownloadRequest.mk "https://example.com/v" None None None None)
              1%Z)).
  reflexivity.
Defined.

(** The hook hands the parsed percentage to [update_progress] as it is. *)
Lemma progress_hook_passes_percent_on `{Library} task_id d now fid w task f :
  d_status d = "downloading" ->
  tasks w !! task_id = Some task ->
  percent_cleaned_of d ≠ "N/A" ->
  percent_cleaned_of d ≠ "" ->
  py_float (percent_cleaned_of d) = Return f ->
  ∃ task',
    tasks (progress_hook task_id d now fid w).2 !! task_id = Some task'
    ∧ Progress.percent (DownloadTask.progress task') = f
    ∧ DownloadTask.status task' = DownloadTask.status task.
Proof.
  intros Hd Hw Hna Hempty Hf. unfold progress_hook. rewrite Hd. simpl.
  apply String.eqb_neq in Hna, Hempty. rewrite Hna, Hempty. simpl.
  unfold mbind, M_bind, bind, lift. rewrite Hf. simpl.
  rewrite (update_progress_lookup _ _ _ _ _ _ _ Hw). by eexists.
Qed.

(** ** C8 *)

(** C8: in every registry the service can build, a stored file path holds
    no path separator; it is therefore a bare name and not an absolute
    path. *)
Theorem stored_filepath_is_base_name (r : registry) task_id task name :
  reachable r ->
  r !! task_id = Some task ->
  DownloadTask.filepath task = Some name ->
  has_char sep name = false ∧ isabs name = false.
Proof.
  intros Hreach. revert task_id task name.
  assert (∀ task_id task name,
            r !! task_id = Some task ->
            DownloadTask.filepath task = Some name ->
            has_char sep name = false) as Hall.
  { induction Hreach as
      [ | r tid request now _ IH | r tid _ IH
        | r tid percent eta speed msg _ IH
        | r tid status error filepath now _ IH ];
      intros task_id task name Hl Hf.
    - by rewrite lookup_empty in Hl.
    - destruct (decide (tid = task_id)) as [->|Hne].
      + rewrite lookup_insert_eq in Hl. by injection Hl as <-.
      + rewrite lookup_insert_ne in Hl by done. eauto.
    - rewrite lookup_alter in Hl. case_decide as Heq.
      + destruct (r !! tid) as [old|] eqn:Hold; simplify_eq/=.
        eapply IH; [exact Hold|done].
      + eauto.
    - destruct (decide (tid = task_id)) as [->|Hne].
      + destruct (r !! task_id) as [old|] eqn:Hold.
        * rewrite (update_progress_lookup _ _ _ _ _ _ _ Hold) in Hl.
          injection Hl as <-. eapply IH; [exact Hold|done].
        * unfold ProgressReporter.update_progress in Hl.
          rewrite Hold in Hl. congruence.
      + rewrite update_progress_other in Hl by done. eauto.
    - destruct (decide (tid = task_id)) as [->|Hne].
      + destruct (r !! task_id) as [old|] eqn:Hold.
        * rewrite (set_status_lookup _ _ _ _ _ _ _ Hold) in Hl.
          injection Hl as <-. simpl in Hf.
          by eapply stored_filepath_no_sep.
        * unfold ProgressReporter.set_status in Hl.
          rewrite Hold in Hl. congruence.
      + rewrite set_status_other in Hl by done. eauto. }
  intros task_id task name Hl Hf.
  pose proof (Hall _ _ _ Hl Hf) as Hns.
  split; [done|by apply no_sep_not_abs].
Qed.

Lemma stored_filepath_is_base_name_witness :
  let r : registry :=
    ProgressReporter.set_status "t1" "completed" None
      (Some "/srv/app/downloads/Song (x).mp3") 7%Z
      (<[ "t1" := queued_task "t1"
                    (DownloadRequest.mk "https://example.com/v" None None None None)
                    1%Z ]> ∅) in
  ∃ task,
    r !! "t1" = Some task
    ∧ DownloadTask.filepath task = Some "Song (x).mp3"
    ∧ has_char sep "Song (x).mp3" = false
    ∧ isabs "Song (x).mp3" = false.
Proof.
  intros r. eexists. split; [reflexivity|]. split; [reflexivity|].
  eapply (stored_filepath_is_base_name r "t1").
  - apply reach_set_status, reach_initiate, reach_empty.
  - reflexivity.
  - reflexivity.
Defined.

(** ** C4 *)

(** What [initiate_download_task] evaluates to. *)
Lemma initiate_download_task_eq uuid4 now request w :
  initiate_download_task uuid4 now request w
  = (Return uuid4,
     World (<[uuid4 := queued_task uuid4 request now]> (tasks w))
       (scheduled w ++ [(uuid4, request)])
       (journal w ++ [<[uuid4 := queued_task uuid4 request now]> (tasks w)])).
Proof. reflexivity. Qed.

(** C4, as stated, fails: the id is the one [uuid4] draws, and the
    function does not look whether the registry holds it already.  When
    it does, the id returned is not a new one and no record is added: the
    record of the earlier job is replaced. *)
Lemma initiate_replaces_record_of_drawn_id :
  let earlier :=
    DownloadTask.mk "id-1" "https://example.com/old" None None None "completed"
      (Progress.mk 100%float "00:00" "N/A" "done") None (Some "a.mp4") None
      1%Z (Some 9%Z) in
  let w := World {[ "id-1" := earlier ]} [] [] in
  let run := initiate_download_task "id-1" 100%Z sample_request w in
  run.1 = Return "id-1"
  ∧ tasks w !! "id-1" = Some earlier
  ∧ size (tasks run.2) = size (tasks w)
  ∧ DownloadTask.status <$> tasks run.2 !! "id-1" = Some "queued"
  ∧ DownloadTask.url <$> tasks run.2 !! "id-1"
    = Some "https://example.com/video1".
Proof. vm_compute. done. Qed.

(** C4, amended: [initiate_download_task] returns the id [uuid4] draws,
    without a test against the registry, and stores under it the record
    of the request: status [queued], progress zero with the texts [N/A],
    [N/A] and [Queued], no info, file path, error or end time, and the
    current time as start time.  The records of all other ids stay as they
    were; the registry grows by one record exactly when it did not hold
    the id; one background unit is scheduled; and a status query made at
    once answers that very record. *)
Theorem initiate_stores_queued_record uuid4 now request w :
  let record :=
    DownloadTask.mk uuid4
      (DownloadRequest.url request) (DownloadRequest.format request)
      (DownloadRequest.quality request)
      (DownloadRequest.browserForCookies request)
      "queued" (Progress.mk 0%float "N/A" "N/A" "Queued")
      None None None now None in
  ∃ w',
    initiate_download_task uuid4 now request w = (Return uuid4, w')
    ∧ tasks w' = <[uuid4 := record]> (tasks w)
    ∧ (∀ other, other ≠ uuid4 -> tasks w' !! other = tasks w !! other)
    ∧ size (tasks w')
      = match tasks w !! uuid4 with
        | None => S (size (tasks w))
        | Some _ => size (tasks w)
        end
    ∧ scheduled w' = (scheduled w ++ [(uuid4, request)])%list
    ∧ get_download_status uuid4 (tasks w') = Some record
    ∧ status_endpoint uuid4 w'
      = Respond 200 (DownloadStatusResponse.mk "queued" record).
Proof.
  intros record. rewrite initiate_download_task_eq.
  eexists. split; [reflexivity|]. simpl.
  split; [reflexivity|].
  split; [by intros other Hne; rewrite lookup_insert_ne|].
  split.
  { destruct (tasks w !! uuid4) as [old|] eqn:Hold.
    - by apply map_size_insert_Some.
    - by apply map_size_insert_None. }
  split; [reflexivity|].
  unfold status_endpoint, get_download_status. simpl.
  rewrite lookup_insert_eq. done.
Qed.

(** ** C9 *)

(** The guard of the handler itself: a request whose URL is the empty
    string is answered 400 and nothing is stored or scheduled. *)
Lemma start_download_empty_url uuid4 now request w :
  DownloadRequest.url request = "" ->
  start_download uuid4 now request w = (HTTPException 400 "URL is required.", w).
Proof. intros Hu. unfold start_download. by rewrite Hu. Qed.

(** C9: a submission whose body has no URL, or the empty string as URL, is
    refused at once with a validation error, and the registry, the
    scheduled units and the journal are as before.  A body without URL
    fails the validation of the required field, which is answered 422.
    An empty URL is answered 422 when the [HttpUrl] validation rejects it
    (as pydantic does); were it passed on to the handler as it is, the
    handler's own guard would answer 400 [URL is required.].  No answer
    carries a task id. *)
Theorem post_start_rejects_missing_url `{Library} uuid4 now body w :
  StartBody.url body = None
  ∨ (StartBody.url body = Some ""
     ∧ (http_url "" = None ∨ http_url "" = Some "")) ->
  (validate_request body = None
   ∧ post_start uuid4 now body w
     = (HTTPException 422 "Unprocessable Entity", w))
  ∨ (StartBody.url body = Some ""
     ∧ http_url "" = Some ""
     ∧ post_start uuid4 now body w = (HTTPException 400 "URL is required.", w)).
Proof.
  intros [Hurl | (Hurl & [Hnone | Hsame])].
  - left. unfold post_start, validate_request. by rewrite Hurl.
  - left. unfold post_start, validate_request. rewrite Hurl. simpl.
    by rewrite Hnone.
  - right. split; [done|]. split; [done|].
    unfold post_start, validate_request. rewrite Hurl. simpl.
    rewrite Hsame. simpl. by apply start_download_empty_url.
Qed.

Lemma post_start_rejects_missing_url_witness :
  let w :=
    World {[ "id-0" := queued_task "id-0"
                         (DownloadRequest.mk "https://example.com/v" None None None None)
                         1%Z ]} [] [] in
  post_start (H := plain_library) "id-1" 100%Z
    (StartBody.mk (Some "") None None None None) w
  = (HTTPException 422 "Unprocessable Entity", w).
Proof.
  intros w.
  destruct (post_start_rejects_missing_url (H := plain_library) "id-1" 100%Z
              (StartBody.mk (Some "") None None None None) w)
    as [[_ Hanswer] | (_ & Hsame & _)].
  - right. split; [reflexivity|]. left. reflexivity.
  - exact Hanswer.
  - discriminate Hsame.
Defined.

(** ** C10 and C3 *)

Lemma prefix_app (a s : string) : String.prefix a (a ++ s) = true.
Proof.
  induction a as [|c a IH]; simpl; [by destruct s|].
  destruct (ascii_dec c c); [exact IH|done].
Qed.

(** What [get_downloaded_file] answers, by the two tests it makes. *)
Lemma get_downloaded_file_cases `{Pathlib} (DOWNLOAD_DIR : Path) filename :
  let file_path := joinpath DOWNLOAD_DIR filename in
  get_downloaded_file DOWNLOAD_DIR filename =
    match is_file file_path with
    | Raise e => (Unhandled e, [FsIsFile file_path])
    | Return true =>
        if traversal_guard DOWNLOAD_DIR file_path then
          (Respond 200
             {| fr_path := file_path; fr_filename := filename;
                fr_media_type := "application/octet-stream" |},
           [FsIsFile file_path; FsResolve file_path; FsResolve DOWNLOAD_DIR;
            Log "INFO" ("Serving file: " ++ filename); OpenFile file_path])
        else
          (HTTPException 400 "Invalid file path.",
           [FsIsFile file_path; FsResolve file_path; FsResolve DOWNLOAD_DIR;
            Log "ERROR" ("Attempted path traversal detected: " ++ filename)])
    | Return false =>
        (HTTPException 404 "File not found.",
         [FsIsFile file_path;
          Log "WARNING" ("Requested file not found: " ++ filename)])
    end.
Proof.
  intros file_path. unfold get_downloaded_file. fold file_path.
  destruct (is_file file_path) as [[|]|e]; simpl; [|done..].
  destruct (traversal_guard DOWNLOAD_DIR file_path); done.
Qed.

(** C10: the guard is a test on strings.  An existing file is served as
    soon as the string of its resolved path starts with the string of the
    resolved download directory, that is, continues it with any text at
    all, a separator or not. *)
Theorem prefix_guard_serves `{Pathlib} (DOWNLOAD_DIR : Path) filename :
  is_file (joinpath DOWNLOAD_DIR filename) = Return true ->
  (String.prefix (path_str (resolve DOWNLOAD_DIR))
     (path_str (resolve (joinpath DOWNLOAD_DIR filename))) = true
   ∨ ∃ continuation,
       path_str (resolve (joinpath DOWNLOAD_DIR filename))
       = path_str (resolve DOWNLOAD_DIR) ++ continuation) ->
  ∃ effects,
    get_downloaded_file DOWNLOAD_DIR filename
    = (Respond 200
         {| fr_path := joinpath DOWNLOAD_DIR filename;
            fr_filename := filename;
            fr_media_type := "application/octet-stream" |},
       effects)
    ∧ OpenFile (joinpath DOWNLOAD_DIR filename) ∈ effects.
Proof.
  intros Hfile Hguard.
  assert (traversal_guard DOWNLOAD_DIR (joinpath DOWNLOAD_DIR filename) = true)
    as Hg.
  { unfold traversal_guard. destruct Hguard as [Hp | [k Hk]]; [exact Hp|].
    rewrite Hk. apply prefix_app. }
  rewrite get_downloaded_file_cases. simpl. rewrite Hfile, Hg.
  eexists. split; [reflexivity|].
  do 4 apply list_elem_of_further. apply list_elem_of_here.
Qed.

(** A file of the sibling directory [downloads-evil] is served, although
    its resolved path is not within the download directory. *)
Lemma prefix_guard_serves_witness :
  let fs :=
    posix_fs "/" ["/srv/app/downloads/a.mp4";
                  "/srv/app/downloads-evil/secret.txt"] in
  let dir : @Path fs := "/srv/app/downloads" in
  let name := "../downloads-evil/secret.txt" in
  path_str (resolve (joinpath dir name)) = "/srv/app/downloads-evil/secret.txt"
  ∧ path_within (path_str (resolve dir)) (path_str (resolve (joinpath dir name)))
    = false
  ∧ ∃ effects,
      get_downloaded_file dir name
      = (Respond 200
           {| fr_path := joinpath dir name; fr_filename := name;
              fr_media_type := "application/octet-stream" |},
         effects)
      ∧ OpenFile (joinpath dir name) ∈ effects.
Proof.
  intros fs dir name.
  split; [reflexivity|]. split; [reflexivity|].
  apply (prefix_guard_serves (H := fs) dir name).
  - reflexivity.
  - right. exists "-evil/secret.txt". reflexivity.
Defined.

(** C3, as stated, fails: for a name that resolves outside the download
    directory the rejection comes after the file system was consulted
    ([is_file], then [resolve] twice). *)
Lemma rejection_follows_fs_access :
  let fs := posix_fs "/" ["/srv/app/downloads/a.mp4"; "/srv/app/secret.txt"] in
  let dir : @Path fs := "/srv/app/downloads" in
  let name := "../secret.txt" in
  let answer := get_downloaded_file dir name in
  path_within (path_str (resolve dir)) (path_str (resolve (joinpath dir name)))
  = false
  ∧ answer.1 = HTTPException 400 "Invalid file path."
  ∧ head answer.2 = Some (FsIsFile (joinpath dir name))
  ∧ existsb is_fs_access answer.2 = true.
Proof. vm_compute. done. Qed.

(** A name the file system refuses is answered neither 404 nor 400: the
    [OSError] of [is_file] leaves the handler, which the server answers
    with 500.  The file is not opened. *)
Example name_too_long_leaves_handler :
  let fs := posix_fs "/" ["/srv/app/downloads/a.mp4"] in
  let dir : @Path fs := "/srv/app/downloads" in
  let answer := get_downloaded_file dir long_name in
  answer.1 = Unhandled (OtherException "[Errno 36] File name too long")
  ∧ status_code_of answer.1 = 500%Z
  ∧ answer.2 = [FsIsFile (joinpath dir long_name)].
Proof. vm_compute. done. Qed.

(** C3, amended: a file is served, and opened, only when the joined path
    is an existing regular file and the string of its resolved path
    starts with the string of the resolved download directory.  Any other
    name is refused and its file is not opened: with 404 when [is_file]
    answers [False], with 400 when the test on the strings fails, and with
    500 when [is_file] itself raises, since the handler catches nothing.
    The first thing the handler does, for every name, is the [is_file]
    test on the file system; the 400 refusal also comes after the two
    [resolve] calls. *)
Theorem retrieval_refuses_without_opening `{Pathlib} (DOWNLOAD_DIR : Path)
    filename :
  let file_path := joinpath DOWNLOAD_DIR filename in
  let answer := get_downloaded_file DOWNLOAD_DIR filename in
  head answer.2 = Some (FsIsFile file_path)
  ∧ (∀ e, is_file file_path = Raise e ->
     answer = (Unhandled e, [FsIsFile file_path])
     ∧ status_code_of answer.1 = 500%Z
     ∧ existsb opens_file answer.2 = false)
  ∧ (is_file file_path = Return false ->
     answer.1 = HTTPException 404 "File not found."
     ∧ existsb opens_file answer.2 = false)
  ∧ (is_file file_path = Return true ->
     traversal_guard DOWNLOAD_DIR file_path = false ->
     answer.1 = HTTPException 400 "Invalid file path."
     ∧ existsb opens_file answer.2 = false
     ∧ take 3 answer.2
       = [FsIsFile file_path; FsResolve file_path; FsResolve DOWNLOAD_DIR])
  ∧ (∀ body, answer.1 = Respond 200 body ->
     is_file file_path = Return true
     ∧ traversal_guard DOWNLOAD_DIR file_path = true
     ∧ fr_path body = file_path)
  ∧ (existsb opens_file answer.2 = true ->
     is_file file_path = Return true
     ∧ traversal_guard DOWNLOAD_DIR file_path = true
     ∧ ∃ body, answer.1 = Respond 200 body).
Proof.
  intros file_path answer. subst answer.
  rewrite get_downloaded_file_cases. fold file_path.
  destruct (is_file file_path) as [[|]|e0] eqn:Hf;
    [destruct (traversal_guard DOWNLOAD_DIR file_path) eqn:Hg| |];
    simpl; repeat split; try done;
      try (intros; simplify_eq; done); try (intros; simplify_eq; eauto).
Qed.

(** ** C6: the statuses of a job *)

Lemma rank_le_refl a : rank_le a a.
Proof. unfold rank_le. lia. Qed.


Lemma rank_le_terminal a b : status_rank b = 3 -> rank_le a b.
Proof.
  unfold rank_le, status_rank. intros ->.
  repeat case_match; lia.
Qed.

Lemma chain_app P a l b l' c :
  chain P a l b -> chain P b l' c -> chain P a (l ++ l') c.
Proof. induction 1; simpl; [done|]. intros. constructor; auto. Qed.

Lemma chain_weaken (P Q : string -> Prop) a l b :
  (∀ s, P s -> Q s) -> chain P a l b -> chain Q a l b.
Proof. intros HPQ. induction 1; constructor; auto. Qed.

Lemma chain_end P a l b : P a -> chain P a l b -> P b.
Proof. intros Ha. induction 1; auto. Qed.



Lemma advances_refl P task_id w task :
  tasks w !! task_id = Some task -> advances P task_id w w.
Proof.
  intros Hw. exists task, task, []. rewrite app_nil_r.
  repeat split; try done. constructor.
Qed.

Lemma advances_trans P task_id w1 w2 w3 :
  advances P task_id w1 w2 -> advances P task_id w2 w3 ->
  advances P task_id w1 w3.
Proof.
  intros (t1 & t2 & js & H1 & H2 & Hj & Hc) (t2' & t3 & js' & H2' & H3 & Hj' & Hc').
  simplify_eq. exists t1, t3, (js ++ js')%list.
  repeat split; try done.
  - by rewrite Hj', Hj, app_assoc.
  - unfold statuses_of. rewrite omap_app. by eapply chain_app.
Qed.

Lemma advances_weaken (P Q : string -> Prop) task_id w w' :
  (∀ s, P s -> Q s) -> advances P task_id w w' -> advances Q task_id w w'.
Proof.
  intros HPQ (t & t' & js & ? & ? & ? & ?). exists t, t', js.
  repeat split; try done. by eapply chain_weaken.
Qed.

(** One write that sets the status of the record. *)
Lemma write_advances (P : string -> Prop) task_id (f : registry -> registry) w task task' :
  tasks w !! task_id = Some task ->
  f (tasks w) !! task_id = Some task' ->
  rank_le (DownloadTask.status task) (DownloadTask.status task') ->
  P (DownloadTask.status task') ->
  advances P task_id w (write f w).2.
Proof.
  intros Hw Hf Hle HP. exists task, task', [f (tasks w)].
  repeat split; try done.
  unfold statuses_of. simpl. rewrite Hf. simpl.
  constructor; [done..|constructor].
Qed.

Lemma in_flight_post s : in_flight s -> rank_le s "post-processing".
Proof. by intros [-> | ->]; vm_compute; lia. Qed.


(** The [with] statement, by whether the collaborator could be entered. *)
Lemma with_ydl_refused {A} ydl (body : M A) w e :
  ydl_enter ydl = Some e -> with_ydl ydl body w = (Raise e, w).
Proof. intros Henter. unfold with_ydl. by rewrite Henter. Qed.

Lemma with_ydl_entered {A} ydl (body : M A) w :
  ydl_enter ydl = None ->
  with_ydl ydl body w = (leaving (ydl_exit ydl) (body w).1, (body w).2).
Proof. intros Henter. unfold with_ydl. rewrite Henter. by destruct (body w). Qed.





Section Lifecycle.
Context `{Library}.
Variable DOWNLOAD_DIR : string.

Lemma progress_hook_advances task_id d now fid w task :
  tasks w !! task_id = Some task ->
  in_flight (DownloadTask.status task) ->
  advances in_flight task_id w (progress_hook task_id d now fid w).2.
Proof.
  intros Hw Hin. unfold progress_hook.
  destruct (String.eqb (d_status d) "downloading").
  - unfold mbind, M_bind, bind.
    destruct (negb (String.eqb (percent_cleaned_of d) "N/A")
              && negb (String.eqb (percent_cleaned_of d) "")).
    + unfold lift. destruct (py_float (percent_cleaned_of d)) as [f|e]; simpl.
      * eapply write_advances; [exact Hw|by apply update_progress_lookup| |done].
        apply rank_le_refl.
      * by eapply advances_refl.
    + simpl.
      eapply write_advances; [exact Hw|by apply update_progress_lookup| |done].
      apply rank_le_refl.
  - destruct (String.eqb (d_status d) "finished").
    + unfold mbind, M_bind, bind. simpl.
      eapply write_advances; [exact Hw|by apply set_status_lookup| |].
      * simpl. by apply in_flight_post.
      * simpl. by right.
    + by eapply advances_refl.
Qed.

Lemma call_hooks_advances task_id calls fid w task :
  tasks w !! task_id = Some task ->
  in_flight (DownloadTask.status task) ->
  advances in_flight task_id w (call_hooks task_id calls fid w).2.
Proof.
  revert fid w task.
  induction calls as [|[d now] calls IH]; intros fid w task Hw Hin; simpl.
  - by eapply advances_refl.
  - unfold mbind, M_bind, bind.
    pose proof (progress_hook_advances task_id d now fid w task Hw Hin) as Hstep.
    destruct (progress_hook task_id d now fid w) as [[fid'|e] w1]; simpl in *.
    + destruct Hstep as (t & t1 & js & Ht & Ht1 & Hj & Hc).
      eapply advances_trans; [by exists t, t1, js|].
      eapply IH; [exact Ht1|]. simplify_eq.
      eapply chain_end; [exact Hin|exact Hc].
    + exact Hstep.
Qed.

Lemma download_advances task_id ydl w task :
  tasks w !! task_id = Some task ->
  in_flight (DownloadTask.status task) ->
  advances in_flight task_id w (download task_id ydl w).2.
Proof.
  intros Hw Hin. unfold download, mbind, M_bind, bind.
  pose proof (call_hooks_advances task_id (ydl_hooks ydl) None w task Hw Hin)
    as Hstep.
  destruct (call_hooks task_id (ydl_hooks ydl) None w) as [[fid|e] w1];
    [|exact Hstep].
  by destruct (ydl_download ydl).
Qed.

Lemma final_path_world ydl fid w : (final_path DOWNLOAD_DIR ydl fid w).2 = w.
Proof.
  unfold final_path. destruct fid as [d|]; [|done].
  destruct (truthy (d_filepath d)); [done|].
  destruct (d_requested_downloads d) as [[|[p|] rest]|]; done.
Qed.

Lemma download_and_report_advances task_id ydl now w task :
  tasks w !! task_id = Some task ->
  in_flight (DownloadTask.status task) ->
  advances in_try task_id w (download_and_report DOWNLOAD_DIR task_id ydl now w).2.
Proof.
  intros Hw Hin. unfold download_and_report.
  destruct (ydl_enter ydl) as [e|] eqn:Henter.
  { rewrite (with_ydl_refused _ _ _ _ Henter). by eapply advances_refl. }
  rewrite (with_ydl_entered _ _ _ Henter). cbn [snd].
  unfold mbind, M_bind, bind.
  pose proof (download_advances task_id ydl w task Hw Hin) as Hstep.
  apply (advances_weaken _ in_try) in Hstep; [|by left].
  destruct (download task_id ydl w) as [[fid|e] w1]; [|exact Hstep].
  simpl in Hstep.
  pose proof (final_path_world ydl fid w1) as Hsame.
  destruct (final_path DOWNLOAD_DIR ydl fid w1) as [[path|e] w1']; simpl in Hsame;
    subst w1'; [|exact Hstep].
  destruct (truthy path); [|exact Hstep].
  destruct Hstep as (t & t1 & js & Ht & Ht1 & Hj & Hc).
  assert (advances in_try task_id w1
            (write (ProgressReporter.set_status task_id "completed" None path now)
               w1).2) as Hdone.
  { eapply write_advances; [exact Ht1|by apply set_status_lookup| |].
    - by apply rank_le_terminal.
    - by right. }
  eapply advances_trans; [by exists t, t1, js|exact Hdone].
Qed.


(** [perform_download] returns; no exception leaves it. *)
Lemma perform_download_returns task_id request ydl now_done now_failed w :
  (perform_download DOWNLOAD_DIR task_id request ydl now_done now_failed w).1
  = Return tt.
Proof.
  unfold perform_download, mbind, M_bind, bind, lookup_task. simpl.
  destruct (tasks w !! task_id); [|done]. simpl.
  unfold try_except.
  match goal with
  | |- context [download_and_report ?a ?b ?c ?d ?e] =>
      destruct (download_and_report a b c d e) as [[[]|e'] w']
  end; [done|by destruct e'].
Qed.


(** An exception of the [try] body ends in a [failed] record that carries
    [str(e)]. *)
Lemma perform_download_records_failure task_id request ydl now_done now_failed
    w task e w2 :
  tasks w !! task_id = Some task ->
  download_and_report DOWNLOAD_DIR task_id ydl now_done
    (write (alter (DownloadTask.assign_status "downloading") task_id) w).2
  = (Raise e, w2) ->
  ∃ task',
    tasks (perform_download DOWNLOAD_DIR task_id request ydl now_done now_failed w).2
      !! task_id = Some task'
    ∧ terminal_fields task' = ("failed", Some (str_exn e), None, Some now_failed).
Proof.
  intros Hw Hbody.
  assert (tasks (write (alter (DownloadTask.assign_status "downloading") task_id) w).2
            !! task_id
          = Some (DownloadTask.assign_status "downloading" task)) as Hw1.
  { simpl. by rewrite lookup_alter_eq, Hw. }
  pose proof (download_and_report_advances task_id ydl now_done _ _ Hw1
                (or_introl eq_refl)) as Hadv.
  rewrite Hbody in Hadv. destruct Hadv as (_ & t2 & _ & _ & Ht2 & _).
  unfold perform_download, mbind, M_bind, bind, lookup_task. simpl.
  rewrite Hw. simpl. unfold try_except.
  simpl in Hbody. rewrite Hbody. simpl in *.
  destruct e; simpl; rewrite (set_status_lookup _ _ _ _ _ _ _ Ht2);
    by eexists.
Qed.

(** A collaborator that returns while no strategy yields a file path makes
    the [try] body raise the fixed message, which ends in the record
    (when leaving the collaborator raises nothing of its own). *)
Lemma unresolved_path_is_failure task_id request ydl now_done now_failed w task
    fid w1 path :
  tasks w !! task_id = Some task ->
  ydl_enter ydl = None ->
  ydl_exit ydl = None ->
  download task_id ydl
    (write (alter (DownloadTask.assign_status "downloading") task_id) w).2
  = (Return fid, w1) ->
  (final_path DOWNLOAD_DIR ydl fid w1).1 = Return path ->
  truthy path = false ->
  ∃ task',
    tasks (perform_download DOWNLOAD_DIR task_id request ydl now_done now_failed w).2
      !! task_id = Some task'
    ∧ terminal_fields task'
      = ("failed", Some unresolved_message, None, Some now_failed).
Proof.
  intros Hw Henter Hexit Hdl Hpath Hfalsy.
  eapply (perform_download_records_failure _ _ _ _ _ _ _
            (OtherException unresolved_message) w1); [exact Hw|].
  unfold download_and_report. rewrite (with_ydl_entered _ _ _ Henter), Hexit.
  unfold mbind, M_bind, bind. rewrite Hdl.
  pose proof (final_path_world ydl fid w1) as Hsame.
  destruct (final_path DOWNLOAD_DIR ydl fid w1) as [o w1']; simpl in *.
  subst o w1'. by rewrite Hfalsy.
Qed.


End Lifecycle.



(** ** C5 *)

(** The report of the ['finished'] hook writes the end time of a record
    that is not terminal. *)
Lemma finished_hook_writes_end_time `{Library} task_id d now fid w task :
  d_status d = "finished" ->
  tasks w !! task_id = Some task ->
  ∃ task',
    tasks (progress_hook task_id d now fid w).2 !! task_id
    = Some task'
    ∧ DownloadTask.status task' = "post-processing"
    ∧ terminal task' = false
    ∧ DownloadTask.endTime task' = Some now.
Proof.
  intros Hd Hw. unfold progress_hook. rewrite Hd. simpl.
  rewrite (set_status_lookup _ _ _ _ _ _ _ Hw). by eexists.
Qed.

(** C5, on the code: in the sample run the end time is written twice, the
    first time by the [post-processing] report, when the job has not
    ended. *)
Theorem end_time_written_before_the_end :
  let w' :=
    lifecycle (H := plain_library) "/srv/app/downloads" "id-1" sample_request
      sample_run 1%Z 200%Z 300%Z (World ∅ [] []) in
  status_and_end_of "id-1" (journal w')
  = [("queued", None); ("downloading", None); ("downloading", None);
     ("post-processing", Some 6%Z); ("completed", Some 200%Z)].
Proof. vm_compute. reflexivity. Qed.

(** ** C2 *)

(** C2, on the code: an exception with an empty [str] ends the job in
    [failed] with the empty string as error message. *)
Theorem silent_failure_has_empty_message :
  let run :=
    perform_download (H := plain_library) "/srv/app/downloads" "id-1"
      sample_request silent_failure_run 200%Z 300%Z
      (initiate_download_task "id-1" 1%Z sample_request (World ∅ [] [])).2 in
  run.1 = Return tt
  ∧ terminal_fields <$> (tasks run.2 !! "id-1")
    = Some ("failed", Some "", None, Some 300%Z).
Proof. vm_compute. done. Qed.

(** The scenario of the specification: after the report of 50 percent the
    record is [downloading] with progress 50. *)
Example progress_report_fifty :
  let w1 := (initiate_download_task "id-1" 1%Z sample_request (World ∅ [] [])).2 in
  let w2 :=
    (write (alter (DownloadTask.assign_status "downloading") "id-1") w1).2 in
  let w3 :=
    (progress_hook (H := plain_library) "id-1"
       (HookDict "downloading" (Some " 50.0%") (Some "00:10") (Some "1MiB/s")
          (Some "Song (x).webm") None None) 5%Z None w2).2 in
  (fun task =>
     (DownloadTask.status task, Progress.percent (DownloadTask.progress task)))
    <$> (tasks w3 !! "id-1")
  = Some ("downloading", 50%float).
Proof. vm_compute. reflexivity. Qed.

(** * Further properties *)

(** ** [perform_download], by cases *)

Lemma perform_download_unknown `{Library} DOWNLOAD_DIR task_id request ydl
    now_done now_failed w :
  tasks w !! task_id = None ->
  perform_download DOWNLOAD_DIR task_id request ydl now_done now_failed w
  = (Return tt, w).
Proof.
  intros Hw. unfold perform_download, mbind, M_bind, bind, lookup_task.
  simpl. by rewrite Hw.
Qed.

Lemma perform_download_known `{Library} DOWNLOAD_DIR task_id request ydl
    now_done now_failed w task :
  tasks w !! task_id = Some task ->
  perform_download DOWNLOAD_DIR task_id request ydl now_done now_failed w
  = match download_and_report DOWNLOAD_DIR task_id ydl now_done
            (started task_id w) with
    | (Return a, w') => (Return a, w')
    | (Raise e, w') =>
        write (ProgressReporter.set_status task_id "failed"
                 (Some (str_exn e)) None now_failed) w'
    end.
Proof.
  intros Hw. unfold perform_download, mbind, M_bind, bind, lookup_task.
  simpl. rewrite Hw. simpl. unfold try_except, started. simpl.
  match goal with
  | |- context [download_and_report ?a ?b ?c ?d ?e] =>
      destruct (download_and_report a b c d e) as [[[]|[m|m]] w']
  end; reflexivity.
Qed.

(** ** What [perform_download] leaves alone *)

Section Frame.
Variable R : DownloadTask.t -> DownloadTask.t -> Prop.
Hypothesis R_refl : ∀ task, R task task.
Hypothesis R_trans : ∀ a b c, R a b -> R b c -> R a c.
Hypothesis R_status : ∀ s task, R task (DownloadTask.assign_status s task).
Hypothesis R_progress : ∀ p task, R task (DownloadTask.assign_progress p task).
Hypothesis R_outcome :
  ∀ s e f n task, R task (DownloadTask.assign_outcome s e f n task).

Lemma touches_only_refl task_id w : touches_only R task_id w w.
Proof.
  unfold touches_only. repeat split; try done.
  destruct (tasks w !! task_id) as [task|]; [by exists task|done].
Qed.

Lemma touches_only_trans task_id w1 w2 w3 :
  touches_only R task_id w1 w2 -> touches_only R task_id w2 w3 ->
  touches_only R task_id w1 w3.
Proof.
  intros (Hs1 & Ho1 & Hr1) (Hs2 & Ho2 & Hr2). repeat split.
  - congruence.
  - intros other Hne. rewrite Ho2, Ho1; done.
  - destruct (tasks w1 !! task_id) as [t1|].
    + destruct Hr1 as (t2 & Ht2 & H12). rewrite Ht2 in Hr2.
      destruct Hr2 as (t3 & Ht3 & H23). exists t3. eauto.
    + by rewrite Hr1 in Hr2.
Qed.

Lemma write_update_progress_touches task_id percent eta speed msg w :
  touches_only R task_id w
    (write (ProgressReporter.update_progress task_id percent eta speed msg) w).2.
Proof.
  repeat split; simpl.
  - intros other Hne. by apply update_progress_other.
  - destruct (tasks w !! task_id) as [task|] eqn:Hw.
    + eexists. split; [by apply update_progress_lookup|apply R_progress].
    + unfold ProgressReporter.update_progress. by rewrite Hw.
Qed.

Lemma write_set_status_touches task_id status error filepath now w :
  touches_only R task_id w
    (write (ProgressReporter.set_status task_id status error filepath now) w).2.
Proof.
  repeat split; simpl.
  - intros other Hne. by apply set_status_other.
  - destruct (tasks w !! task_id) as [task|] eqn:Hw.
    + eexists. split; [by apply set_status_lookup|apply R_outcome].
    + unfold ProgressReporter.set_status. by rewrite Hw.
Qed.

Lemma started_touches task_id w : touches_only R task_id w (started task_id w).
Proof.
  repeat split; simpl.
  - intros other Hne. by rewrite lookup_alter_ne.
  - rewrite lookup_alter_eq.
    destruct (tasks w !! task_id) as [task|]; simpl; [|done].
    eexists. split; [done|apply R_status].
Qed.

Context `{Library}.
Variable DOWNLOAD_DIR : string.

Lemma progress_hook_touches task_id d now fid w :
  touches_only R task_id w (progress_hook task_id d now fid w).2.
Proof.
  unfold progress_hook.
  destruct (String.eqb (d_status d) "downloading").
  - unfold mbind, M_bind, bind.
    destruct (negb (String.eqb (percent_cleaned_of d) "N/A")
              && negb (String.eqb (percent_cleaned_of d) "")).
    + unfold lift. destruct (py_float (percent_cleaned_of d)) as [f|e]; simpl.
      * apply write_update_progress_touches.
      * apply touches_only_refl.
    + simpl. apply write_update_progress_touches.
  - destruct (String.eqb (d_status d) "finished").
    + unfold mbind, M_bind, bind. simpl. apply write_set_status_touches.
    + apply touches_only_refl.
Qed.

Lemma call_hooks_touches task_id calls fid w :
  touches_only R task_id w (call_hooks task_id calls fid w).2.
Proof.
  revert fid w. induction calls as [|[d now] calls IH]; intros fid w; simpl.
  - apply touches_only_refl.
  - unfold mbind, M_bind, bind.
    pose proof (progress_hook_touches task_id d now fid w) as Hstep.
    destruct (progress_hook task_id d now fid w) as [[fid'|e] w1]; simpl in *.
    + eapply touches_only_trans; [exact Hstep|apply IH].
    + exact Hstep.
Qed.

Lemma download_touches task_id ydl w :
  touches_only R task_id w (download task_id ydl w).2.
Proof.
  unfold download, mbind, M_bind, bind.
  pose proof (call_hooks_touches task_id (ydl_hooks ydl) None w) as Hstep.
  destruct (call_hooks task_id (ydl_hooks ydl) None w) as [[fid|e] w1];
    [|exact Hstep].
  by destruct (ydl_download ydl).
Qed.

Lemma download_and_report_touches task_id ydl now w :
  touches_only R task_id w
    (download_and_report DOWNLOAD_DIR task_id ydl now w).2.
Proof.
  unfold download_and_report.
  destruct (ydl_enter ydl) as [e|] eqn:Henter.
  { rewrite (with_ydl_refused _ _ _ _ Henter). apply touches_only_refl. }
  rewrite (with_ydl_entered _ _ _ Henter). cbn [snd].
  unfold mbind, M_bind, bind.
  pose proof (download_touches task_id ydl w) as Hstep.
  destruct (download task_id ydl w) as [[fid|e] w1]; [|exact Hstep].
  simpl in Hstep.
  pose proof (final_path_world DOWNLOAD_DIR ydl fid w1) as Hsame.
  destruct (final_path DOWNLOAD_DIR ydl fid w1) as [[path|e] w1'];
    simpl in Hsame; subst w1'; [|exact Hstep].
  destruct (truthy path); [|exact Hstep].
  eapply touches_only_trans; [exact Hstep|apply write_set_status_touches].
Qed.

Lemma perform_download_touches task_id request ydl now_done now_failed w :
  touches_only R task_id w
    (perform_download DOWNLOAD_DIR task_id request ydl now_done now_failed w).2.
Proof.
  destruct (tasks w !! task_id) as [task|] eqn:Hw.
  - rewrite (perform_download_known _ _ _ _ _ _ _ _ Hw).
    pose proof (started_touches task_id w) as Hfirst.
    pose proof (download_and_report_touches task_id ydl now_done
                  (started task_id w)) as Hbody.
    destruct (download_and_report DOWNLOAD_DIR task_id ydl now_done
                (started task_id w)) as [[[]|e] w2]; simpl in Hbody.
    + by eapply touches_only_trans.
    + eapply touches_only_trans; [exact Hfirst|].
      eapply touches_only_trans; [exact Hbody|].
      apply write_set_status_touches.
  - rewrite (perform_download_unknown _ _ _ _ _ _ _ Hw).
    apply touches_only_refl.
Qed.

End Frame.

(** X1.  A background unit changes nothing but its own record: the
    records of the other jobs, what a poll of them answers, the set of
    known ids and the scheduled units are as before. *)
Theorem perform_download_isolated `{Library} DOWNLOAD_DIR task_id request ydl
    now_done now_failed w :
  let w' :=
    (perform_download DOWNLOAD_DIR task_id request ydl now_done now_failed w).2 in
  scheduled w' = scheduled w
  ∧ dom (tasks w') = dom (tasks w)
  ∧ ∀ other, other ≠ task_id ->
      tasks w' !! other = tasks w !! other
      ∧ status_endpoint other w' = status_endpoint other w.
Proof.
  intros w'.
  assert (touches_only (fun _ _ => True) task_id w w') as (Hs & Ho & Hr).
  { by apply perform_download_touches. }
  split; [exact Hs|]. split.
  - apply set_eq. intros k. rewrite !elem_of_dom.
    destruct (decide (k = task_id)) as [->|Hne]; [|by rewrite Ho].
    destruct (tasks w !! task_id) as [task|].
    + destruct Hr as (task' & -> & _). by split; eauto.
    + by rewrite Hr.
  - intros other Hne. split; [by apply Ho|].
    unfold status_endpoint, get_download_status. by rewrite Ho.
Qed.

(** X2.  A background unit never changes what its record took from the
    request: id, url, format, quality, browser, info and start time. *)
Theorem perform_download_keeps_request `{Library} DOWNLOAD_DIR task_id request
    ydl now_done now_failed w task :
  tasks w !! task_id = Some task ->
  ∃ task',
    tasks (perform_download DOWNLOAD_DIR task_id request ydl now_done
             now_failed w).2 !! task_id = Some task'
    ∧ request_fields task' = request_fields task.
Proof.
  intros Hw.
  assert (touches_only same_request task_id w
            (perform_download DOWNLOAD_DIR task_id request ydl now_done
               now_failed w).2) as (_ & _ & Hr).
  { apply perform_download_touches; unfold same_request; try done.
    intros a b c. congruence. }
  rewrite Hw in Hr. destruct Hr as (task' & Ht' & Hsame).
  exists task'. split; [exact Ht'|]. by symmetry.
Qed.

Lemma perform_download_keeps_request_witness :
  ∃ task',
    tasks (perform_download (H := plain_library) "/srv/app/downloads" "id-1"
             sample_request sample_run 200%Z 300%Z
             (initiate_download_task "id-1" 1%Z sample_request (World ∅ [] [])).2).2
      !! "id-1" = Some task'
    ∧ request_fields task'
      = request_fields (queued_task "id-1" sample_request 1%Z).
Proof.
  apply (perform_download_keeps_request (H := plain_library)).
  reflexivity.
Defined.

(** ** The hook calls of a run *)

Section Hooks.
Context `{Library}.

(** When the hook returns on every call, the calls end with the
    dictionary of the last ['finished'] one. *)
Lemma call_hooks_returns task_id calls fid w :
  forallb (fun call => hook_returns call.1) calls = true ->
  (call_hooks task_id calls fid w).1 = Return (last_finished calls fid).
Proof.
  revert fid w. induction calls as [|[d now] calls IH]; intros fid w Hok;
    simpl in *; [done|].
  apply andb_prop in Hok as [Hd Hrest].
  unfold mbind, M_bind, bind. unfold hook_returns in Hd.
  unfold progress_hook.
  destruct (String.eqb (d_status d) "downloading"); simpl in *.
  - unfold mbind, M_bind, bind.
    destruct (negb (String.eqb (percent_cleaned_of d) "N/A")
              && negb (String.eqb (percent_cleaned_of d) "")); simpl in *.
    + unfold lift.
      destruct (py_float (percent_cleaned_of d)) as [f|e]; [|done].
      simpl. by apply IH.
    + by apply IH.
  - destruct (String.eqb (d_status d) "finished"); simpl; by apply IH.
Qed.

(** The first call on which the hook raises ends the calls with that
    exception: the call writes nothing, and the calls after it are not
    made, so the world is the one the calls before it left. *)
Lemma call_hooks_raises task_id before d now after fid w e :
  forallb (fun call => hook_returns call.1) before = true ->
  d_status d = "downloading" ->
  percent_cleaned_of d ≠ "N/A" ->
  percent_cleaned_of d ≠ "" ->
  py_float (percent_cleaned_of d) = Raise e ->
  call_hooks task_id (before ++ (d, now) :: after) fid w
  = (Raise e, (call_hooks task_id before fid w).2).
Proof.
  intros Hok Hd Hna Hempty Hf. revert fid w.
  induction before as [|[d0 now0] before IH]; intros fid w; simpl in *.
  - unfold mbind, M_bind, bind, progress_hook. rewrite Hd. simpl.
    apply String.eqb_neq in Hna, Hempty. rewrite Hna, Hempty. simpl.
    unfold mbind, M_bind, bind, lift. by rewrite Hf.
  - apply andb_prop in Hok as [Hd0 Hrest].
    unfold mbind, M_bind, bind.
    pose proof (call_hooks_returns task_id [(d0, now0)] fid w) as Hone.
    simpl in Hone. rewrite Hd0 in Hone. specialize (Hone eq_refl).
    unfold mbind, M_bind, bind in Hone.
    destruct (progress_hook task_id d0 now0 fid w) as [[fid'|e'] w1];
      simpl in *; [by apply IH|done].
Qed.

End Hooks.

(** ** How a run ends *)

Section Outcomes.
Context `{Library}.
Variable DOWNLOAD_DIR : string.

Lemma final_path_chosen ydl fid w :
  final_path DOWNLOAD_DIR ydl fid w = (chosen_path DOWNLOAD_DIR ydl fid, w).
Proof.
  unfold chosen_path, final_path. destruct fid as [d|]; [|done].
  destruct (truthy (d_filepath d)); [done|].
  destruct (d_requested_downloads d) as [[|[p|] rest]|]; done.
Qed.

(** The [try] body on a run that enters, whose hook calls return and
    whose download returns. *)
Lemma download_and_report_passing task_id ydl now w :
  ydl_enter ydl = None ->
  forallb (fun call => hook_returns call.1) (ydl_hooks ydl) = true ->
  ydl_download ydl = None ->
  ∃ w2,
    touches_only (fun _ _ => True) task_id w w2
    ∧ (∃ js, journal w2 = (journal w ++ js)%list)
    ∧ download_and_report DOWNLOAD_DIR task_id ydl now w
      = match chosen_path DOWNLOAD_DIR ydl (last_finished (ydl_hooks ydl) None) with
        | Return path =>
            if truthy path then
              (leaving (ydl_exit ydl) (Return tt),
               (write (ProgressReporter.set_status task_id "completed" None
                         path now) w2).2)
            else
              (leaving (ydl_exit ydl) (Raise (OtherException unresolved_message)),
               w2)
        | Raise e => (leaving (ydl_exit ydl) (Raise e), w2)
        end.
Proof.
  intros Henter Hhooks Hdl.
  pose proof (call_hooks_returns task_id (ydl_hooks ydl) None w Hhooks) as Hfid.
  pose proof (call_hooks_touches (fun _ _ => True) (fun _ => I)
                (fun _ _ _ _ _ => I) (fun _ _ => I) (fun _ _ _ _ _ => I)
                task_id (ydl_hooks ydl) None w) as Htouch.
  assert (∃ js, journal (call_hooks task_id (ydl_hooks ydl) None w).2
                = (journal w ++ js)%list) as Hj.
  { clear. generalize (@None hook_dict) as fid. revert w.
    induction (ydl_hooks ydl) as [|[d t] calls IH]; intros w fid; simpl.
    - exists []. by rewrite app_nil_r.
    - unfold mbind, M_bind, bind.
      assert (∃ js, journal (progress_hook task_id d t fid w).2
                    = (journal w ++ js)%list) as [js1 Hj1].
      { unfold progress_hook.
        destruct (String.eqb (d_status d) "downloading").
        - unfold mbind, M_bind, bind.
          destruct (negb (String.eqb (percent_cleaned_of d) "N/A")
                    && negb (String.eqb (percent_cleaned_of d) "")).
          + unfold lift. destruct (py_float (percent_cleaned_of d)); simpl;
              [by eexists [_]|exists []; by rewrite app_nil_r].
          + simpl. by eexists [_].
        - destruct (String.eqb (d_status d) "finished"); simpl;
            [by eexists [_]|exists []; by rewrite app_nil_r]. }
      destruct (progress_hook task_id d t fid w) as [[fid'|e] w1]; simpl in *.
      + destruct (IH w1 fid') as [js2 Hj2].
        exists (js1 ++ js2)%list. by rewrite Hj2, Hj1, app_assoc.
      + by exists js1. }
  destruct (call_hooks task_id (ydl_hooks ydl) None w) as [o w2] eqn:Hcalls.
  simpl in Hfid, Htouch, Hj. subst o.
  exists w2. split; [exact Htouch|]. split; [exact Hj|].
  unfold download_and_report. rewrite (with_ydl_entered _ _ _ Henter).
  unfold download, mbind, M_bind, bind. rewrite Hcalls, Hdl. simpl.
  rewrite final_path_chosen.
  destruct (chosen_path DOWNLOAD_DIR ydl (last_finished (ydl_hooks ydl) None))
    as [path|e]; [|done].
  by destruct (truthy path).
Qed.

(** The [try] body returns only after the report of completion. *)
Lemma download_and_report_returned task_id ydl now w w' :
  download_and_report DOWNLOAD_DIR task_id ydl now w = (Return tt, w') ->
  ∃ fid w1 p,
    download task_id ydl w = (Return fid, w1)
    ∧ p ≠ ""
    ∧ w' = (write (ProgressReporter.set_status task_id "completed" None
                     (Some p) now) w1).2.
Proof.
  unfold download_and_report.
  destruct (ydl_enter ydl) as [e|] eqn:Henter.
  { by rewrite (with_ydl_refused _ _ _ _ Henter). }
  rewrite (with_ydl_entered _ _ _ Henter).
  unfold mbind, M_bind, bind.
  destruct (download task_id ydl w) as [[fid|e] w1];
    [|by destruct (ydl_exit ydl)].
  rewrite final_path_chosen.
  destruct (chosen_path DOWNLOAD_DIR ydl fid) as [[[|c p]|]|e]; simpl;
    try by destruct (ydl_exit ydl).
  destruct (ydl_exit ydl); [done|]. intros [= <-].
  by exists fid, w1, (String c p).
Qed.

(** X3.  Whatever the collaborator does, the unit of a known job ends
    with the record terminal, in one of two shapes: completed, without
    error, with a base name as file path and the end time of the
    completion; or failed, with the text of an exception as error, no
    file path, and the end time of the failure. *)
Theorem perform_download_ends_terminal task_id request ydl now_done
    now_failed w task :
  tasks w !! task_id = Some task ->
  ∃ task',
    tasks (perform_download DOWNLOAD_DIR task_id request ydl now_done
             now_failed w).2 !! task_id = Some task'
    ∧ ((∃ p, p ≠ ""
           ∧ terminal_fields task'
             = ("completed", None, Some (basename p), Some now_done))
       ∨ (∃ e, terminal_fields task'
               = ("failed", Some (str_exn e), None, Some now_failed))).
Proof.
  intros Hw.
  destruct (download_and_report DOWNLOAD_DIR task_id ydl now_done
              (started task_id w)) as [[[]|e] w2] eqn:Hbody.
  - rewrite (perform_download_known _ _ _ _ _ _ _ _ Hw), Hbody. simpl.
    apply download_and_report_returned in Hbody
      as (fid & w1 & p & Hdl & Hp & ->).
    pose proof (download_touches (fun _ _ => True) (fun _ => I)
                  (fun _ _ _ _ _ => I) (fun _ _ => I) (fun _ _ _ _ _ => I)
                  task_id ydl (started task_id w)) as (_ & _ & Hthere).
    rewrite Hdl in Hthere. simpl in Hthere.
    rewrite lookup_alter_eq, Hw in Hthere. simpl in Hthere.
    destruct Hthere as (t1 & Ht1 & _). simpl.
    rewrite (set_status_lookup _ _ _ _ _ _ _ Ht1).
    eexists. split; [done|]. left. exists p. split; [done|].
    destruct p; done.
  - destruct (perform_download_records_failure DOWNLOAD_DIR task_id request ydl
                now_done now_failed w task e w2 Hw Hbody) as (t' & Ht' & Hf).
    exists t'. split; [exact Ht'|]. right. by exists e.
Qed.


(** The record at the end of a run that enters, whose hook calls return
    and whose download returns, by the path the strategies arrive at. *)
Lemma perform_download_passing task_id request ydl now_done now_failed w task :
  tasks w !! task_id = Some task ->
  ydl_enter ydl = None ->
  forallb (fun call => hook_returns call.1) (ydl_hooks ydl) = true ->
  ydl_download ydl = None ->
  terminal_fields <$>
    (tasks (perform_download DOWNLOAD_DIR task_id request ydl now_done
              now_failed w).2 !! task_id)
  = Some
      match chosen_path DOWNLOAD_DIR ydl (last_finished (ydl_hooks ydl) None) with
      | Return path =>
          if truthy path then
            match ydl_exit ydl with
            | None => ("completed", None, basename <$> path, Some now_done)
            | Some e => ("failed", Some (str_exn e), None, Some now_failed)
            end
          else
            ("failed",
             Some (str_exn (default (OtherException unresolved_message)
                              (ydl_exit ydl))),
             None, Some now_failed)
      | Raise e =>
          ("failed", Some (str_exn (default e (ydl_exit ydl))), None,
           Some now_failed)
      end.
Proof.
  intros Hw Henter Hhooks Hdl.
  rewrite (perform_download_known _ _ _ _ _ _ _ _ Hw).
  destruct (download_and_report_passing task_id ydl now_done
              (started task_id w) Henter Hhooks Hdl)
    as (w2 & (_ & _ & Hthere) & _ & ->).
  simpl in Hthere. rewrite lookup_alter_eq, Hw in Hthere. simpl in Hthere.
  destruct Hthere as (t2 & Ht2 & _).
  destruct (chosen_path DOWNLOAD_DIR ydl (last_finished (ydl_hooks ydl) None))
    as [path|e]; simpl.
  - destruct (truthy path) eqn:Hpath; simpl.
    + destruct (ydl_exit ydl) as [e|]; simpl.
      * erewrite set_status_lookup; [done|].
        by erewrite set_status_lookup.
      * erewrite set_status_lookup; [|done]. simpl. by rewrite Hpath.
    + destruct (ydl_exit ydl) as [e|]; simpl; by erewrite set_status_lookup.
  - destruct (ydl_exit ydl) as [e'|]; simpl; by erewrite set_status_lookup.
Qed.

(** X4.  The path a ['finished'] call reports wins: when the last such
    call carries a non-empty ['_filepath'], a run that goes through ends
    completed with the base name of that path, whatever
    ['requested_downloads'] and the prediction would give. *)
Theorem completion_stores_reported_path task_id request ydl now_done now_failed
    w task d p :
  tasks w !! task_id = Some task ->
  ydl_enter ydl = None ->
  forallb (fun call => hook_returns call.1) (ydl_hooks ydl) = true ->
  ydl_download ydl = None ->
  ydl_exit ydl = None ->
  last_finished (ydl_hooks ydl) None = Some d ->
  d_filepath d = Some p ->
  p ≠ "" ->
  terminal_fields <$>
    (tasks (perform_download DOWNLOAD_DIR task_id request ydl now_done
              now_failed w).2 !! task_id)
  = Some ("completed", None, Some (basename p), Some now_done).
Proof.
  intros Hw Henter Hhooks Hdl Hexit Hlast Hfp Hp.
  rewrite (perform_download_passing _ _ _ _ _ _ _ Hw Henter Hhooks Hdl).
  rewrite Hlast, Hexit. unfold chosen_path, final_path. rewrite Hfp.
  destruct p; done.
Qed.

(** X5.  A ['finished'] dictionary without ['_filepath'] whose first
    requested download has no ['filepath'] key fails the job, although
    the download returned: the error is the text of the [KeyError], or,
    when leaving the collaborator raises as well, the text of that later
    exception. *)
Theorem missing_filepath_key_fails task_id request ydl now_done now_failed
    w task d rest :
  tasks w !! task_id = Some task ->
  ydl_enter ydl = None ->
  forallb (fun call => hook_returns call.1) (ydl_hooks ydl) = true ->
  ydl_download ydl = None ->
  last_finished (ydl_hooks ydl) None = Some d ->
  truthy (d_filepath d) = false ->
  d_requested_downloads d = Some (None :: rest) ->
  terminal_fields <$>
    (tasks (perform_download DOWNLOAD_DIR task_id request ydl now_done
              now_failed w).2 !! task_id)
  = Some ("failed",
          Some match ydl_exit ydl with
               | None => "'filepath'"
               | Some e => str_exn e
               end,
          None, Some now_failed).
Proof.
  intros Hw Henter Hhooks Hdl Hlast Hfp Hreq.
  rewrite (perform_download_passing _ _ _ _ _ _ _ Hw Henter Hhooks Hdl).
  rewrite Hlast. unfold chosen_path, final_path. rewrite Hfp, Hreq.
  by destruct (ydl_exit ydl).
Qed.

Lemma chosen_path_predicted ydl fid :
  no_reported_path fid = true ->
  chosen_path DOWNLOAD_DIR ydl fid = Return (predict_path DOWNLOAD_DIR ydl).
Proof.
  unfold no_reported_path, chosen_path, final_path.
  destruct fid as [d|]; [|done].
  destruct (truthy (d_filepath d)); [done|].
  by destruct (d_requested_downloads d) as [[|? ?]|].
Qed.

(** X6.  When the hook calls report no path, the predicted file name
    decides: if the file is on disk the run ends completed with its base
    name. *)
Theorem completion_stores_predicted_path task_id request ydl now_done
    now_failed w task name :
  tasks w !! task_id = Some task ->
  ydl_enter ydl = None ->
  forallb (fun call => hook_returns call.1) (ydl_hooks ydl) = true ->
  ydl_download ydl = None ->
  ydl_exit ydl = None ->
  no_reported_path (last_finished (ydl_hooks ydl) None) = true ->
  ydl_predicted ydl = Return name ->
  path_exists ydl (path_join DOWNLOAD_DIR name) = true ->
  path_join DOWNLOAD_DIR name ≠ "" ->
  terminal_fields <$>
    (tasks (perform_download DOWNLOAD_DIR task_id request ydl now_done
              now_failed w).2 !! task_id)
  = Some ("completed", None, Some (basename (path_join DOWNLOAD_DIR name)),
          Some now_done).
Proof.
  intros Hw Henter Hhooks Hdl Hexit Hnone Hpred Hexists Hne.
  rewrite (perform_download_passing _ _ _ _ _ _ _ Hw Henter Hhooks Hdl).
  rewrite (chosen_path_predicted _ _ Hnone), Hexit.
  unfold predict_path. rewrite Hpred, Hexists.
  destruct (path_join DOWNLOAD_DIR name); done.
Qed.

(** X7.  When the hook calls report no path and the predicted file is not
    on disk, or the prediction raises, the job fails although the
    download returned: the error is the fixed message, or, when leaving
    the collaborator raises as well, the text of that later exception. *)
Theorem missing_predicted_file_fails task_id request ydl now_done now_failed
    w task :
  tasks w !! task_id = Some task ->
  ydl_enter ydl = None ->
  forallb (fun call => hook_returns call.1) (ydl_hooks ydl) = true ->
  ydl_download ydl = None ->
  no_reported_path (last_finished (ydl_hooks ydl) None) = true ->
  (∃ e, ydl_predicted ydl = Raise e)
  ∨ (∃ name, ydl_predicted ydl = Return name
             ∧ path_exists ydl (path_join DOWNLOAD_DIR name) = false) ->
  terminal_fields <$>
    (tasks (perform_download DOWNLOAD_DIR task_id request ydl now_done
              now_failed w).2 !! task_id)
  = Some ("failed",
          Some match ydl_exit ydl with
               | None =>
                   "Could not determine final downloaded file path after completion."
               | Some e => str_exn e
               end,
          None, Some now_failed).
Proof.
  intros Hw Henter Hhooks Hdl Hnone Hpred.
  rewrite (perform_download_passing _ _ _ _ _ _ _ Hw Henter Hhooks Hdl).
  rewrite (chosen_path_predicted _ _ Hnone).
  unfold predict_path.
  destruct Hpred as [[e ->] | (name & -> & ->)]; by destruct (ydl_exit ydl).
Qed.

(** X8.  An exception of [__exit__] after the report of completion is
    caught by the same handlers: the record is written [completed], with
    the base name of the file, and in the very next write [failed], with
    the text of that exception and without file path.  The two writes are
    the last two of the unit, and the job ends failed although the file
    is there. *)
Theorem exit_failure_overwrites_completion task_id request ydl now_done
    now_failed w task p e :
  tasks w !! task_id = Some task ->
  ydl_enter ydl = None ->
  forallb (fun call => hook_returns call.1) (ydl_hooks ydl) = true ->
  ydl_download ydl = None ->
  chosen_path DOWNLOAD_DIR ydl (last_finished (ydl_hooks ydl) None)
  = Return (Some p) ->
  p ≠ "" ->
  ydl_exit ydl = Some e ->
  let w' :=
    (perform_download DOWNLOAD_DIR task_id request ydl now_done now_failed w).2 in
  terminal_fields <$> (tasks w' !! task_id)
  = Some ("failed", Some (str_exn e), None, Some now_failed)
  ∧ ∃ js r,
      journal w' = (js ++ [r; tasks w'])%list
      ∧ terminal_fields <$> (r !! task_id)
        = Some ("completed", None, Some (basename p), Some now_done).
Proof.
  intros Hw Henter Hhooks Hdl Hpath Hp Hexit w'. split.
  - unfold w'.
    rewrite (perform_download_passing _ _ _ _ _ _ _ Hw Henter Hhooks Hdl).
    rewrite Hpath, Hexit. by destruct p.
  - unfold w'. rewrite (perform_download_known _ _ _ _ _ _ _ _ Hw).
    destruct (download_and_report_passing task_id ydl now_done
                (started task_id w) Henter Hhooks Hdl)
      as (w2 & (_ & _ & Hthere) & _ & ->).
    simpl in Hthere. rewrite lookup_alter_eq, Hw in Hthere. simpl in Hthere.
    destruct Hthere as (t2 & Ht2 & _).
    rewrite Hpath, Hexit.
    assert (truthy (Some p) = true) as -> by by destruct p.
    simpl.
    exists (journal w2),
      (ProgressReporter.set_status task_id "completed" None (Some p)
         now_done (tasks w2)).
    split.
    + by rewrite <- app_assoc.
    + erewrite set_status_lookup; [|done]. by destruct p.
Qed.

(** X9.  A progress text that [float] rejects fails the whole job.  The
    exception leaves the hook before anything is written for that call,
    and it leaves the download: the calls after it are not made, so the
    unit ends in the world the calls before it left, with the report of
    the failure as its one further write.  The record ends failed with
    the text of the exception, or, when leaving the collaborator raises
    as well, with the text of that later exception. *)
Theorem rejected_percentage_fails_job task_id request ydl now_done now_failed
    w task before d now after e :
  tasks w !! task_id = Some task ->
  ydl_enter ydl = None ->
  ydl_hooks ydl = (before ++ (d, now) :: after)%list ->
  forallb (fun call => hook_returns call.1) before = true ->
  d_status d = "downloading" ->
  percent_cleaned_of d ≠ "N/A" ->
  percent_cleaned_of d ≠ "" ->
  py_float (percent_cleaned_of d) = Raise e ->
  let text :=
    match ydl_exit ydl with
    | None => str_exn e
    | Some e' => str_exn e'
    end in
  perform_download DOWNLOAD_DIR task_id request ydl now_done now_failed w
  = (Return tt,
     (write (ProgressReporter.set_status task_id "failed" (Some text) None
               now_failed)
        (call_hooks task_id before None (started task_id w)).2).2)
  ∧ terminal_fields <$>
      (tasks (perform_download DOWNLOAD_DIR task_id request ydl now_done
                now_failed w).2 !! task_id)
    = Some ("failed", Some text, None, Some now_failed).
Proof.
  intros Hw Henter Hcalls Hbefore Hd Hna Hempty Hf text.
  pose proof (call_hooks_raises task_id before d now after None
                (started task_id w) e Hbefore Hd Hna Hempty Hf) as Hraise.
  assert (perform_download DOWNLOAD_DIR task_id request ydl now_done now_failed w
          = (Return tt,
             (write (ProgressReporter.set_status task_id "failed" (Some text)
                       None now_failed)
                (call_hooks task_id before None (started task_id w)).2).2))
    as Hrun.
  { rewrite (perform_download_known _ _ _ _ _ _ _ _ Hw).
    unfold download_and_report. rewrite (with_ydl_entered _ _ _ Henter).
    unfold download, mbind, M_bind, bind. rewrite Hcalls, Hraise.
    unfold text. by destruct (ydl_exit ydl). }
  split; [exact Hrun|]. rewrite Hrun. cbn [snd].
  pose proof (call_hooks_touches (fun _ _ => True) (fun _ => I)
                (fun _ _ _ _ _ => I) (fun _ _ => I) (fun _ _ _ _ _ => I)
                task_id before None (started task_id w)) as (_ & _ & Hthere).
  simpl in Hthere. rewrite lookup_alter_eq, Hw in Hthere. simpl in Hthere.
  destruct Hthere as (t2 & Ht2 & _).
  simpl. by erewrite set_status_lookup.
Qed.

End Outcomes.

(** ** The theorems on runs, on the runs of the examples *)

Lemma perform_download_ends_terminal_witness :
  ∃ task',
    tasks (perform_download (H := plain_library) "/srv/app/downloads" "id-1"
             sample_request sample_run 200%Z 300%Z queued_world).2
      !! "id-1" = Some task'
    ∧ ((∃ p, p ≠ ""
           ∧ terminal_fields task'
             = ("completed", None, Some (basename p), Some 200%Z))
       ∨ (∃ e, terminal_fields task'
               = ("failed", Some (str_exn e), None, Some 300%Z))).
Proof.
  apply (perform_download_ends_terminal (H := plain_library)
           "/srv/app/downloads" "id-1" sample_request sample_run 200%Z 300%Z
           queued_world (queued_task "id-1" sample_request 1%Z)).
  reflexivity.
Defined.

Lemma completion_stores_reported_path_witness :
  terminal_fields <$>
    (tasks (perform_download (H := plain_library) "/srv/app/downloads" "id-1"
              sample_request reported_path_run 200%Z 300%Z queued_world).2
       !! "id-1")
  = Some ("completed", None, Some "Song (x).mp3", Some 200%Z).
Proof.
  apply (completion_stores_reported_path (H := plain_library)
           "/srv/app/downloads" "id-1" sample_request reported_path_run
           200%Z 300%Z queued_world (queued_task "id-1" sample_request 1%Z)
           (HookDict "finished" None None None (Some "Song (x).webm")
              (Some "/srv/app/downloads/Song (x).mp3") None)
           "/srv/app/downloads/Song (x).mp3");
    try reflexivity.
  discriminate.
Defined.

Lemma missing_filepath_key_fails_witness :
  terminal_fields <$>
    (tasks (perform_download (H := plain_library) "/srv/app/downloads" "id-1"
              sample_request keyless_run 200%Z 300%Z queued_world).2
       !! "id-1")
  = Some ("failed", Some "'filepath'", None, Some 300%Z).
Proof.
  apply (missing_filepath_key_fails (H := plain_library)
           "/srv/app/downloads" "id-1" sample_request keyless_run
           200%Z 300%Z queued_world (queued_task "id-1" sample_request 1%Z)
           (HookDict "finished" None None None (Some "Song (x).webm") None
              (Some [None]))
           []);
    reflexivity.
Defined.

Lemma completion_stores_predicted_path_witness :
  terminal_fields <$>
    (tasks (perform_download (H := plain_library) "/srv/app/downloads" "id-1"
              sample_request sample_run 200%Z 300%Z queued_world).2
       !! "id-1")
  = Some ("completed", None, Some "Song (x).mp3", Some 200%Z).
Proof.
  apply (completion_stores_predicted_path (H := plain_library)
           "/srv/app/downloads" "id-1" sample_request sample_run
           200%Z 300%Z queued_world (queued_task "id-1" sample_request 1%Z)
           "/srv/app/downloads/Song (x).mp3");
    try reflexivity.
  discriminate.
Defined.

Lemma missing_predicted_file_fails_witness :
  terminal_fields <$>
    (tasks (perform_download (H := plain_library) "/srv/app/downloads" "id-1"
              sample_request missing_file_run 200%Z 300%Z queued_world).2
       !! "id-1")
  = Some ("failed", Some unresolved_message, None, Some 300%Z).
Proof.
  apply (missing_predicted_file_fails (H := plain_library)
           "/srv/app/downloads" "id-1" sample_request missing_file_run
           200%Z 300%Z queued_world (queued_task "id-1" sample_request 1%Z));
    try reflexivity.
  right. exists "/srv/app/downloads/Song (x).webm". split; reflexivity.
Defined.

Lemma exit_failure_overwrites_completion_witness :
  let w' :=
    (perform_download (H := plain_library) "/srv/app/downloads" "id-1"
       sample_request exit_failure_run 200%Z 300%Z queued_world).2 in
  terminal_fields <$> (tasks w' !! "id-1")
  = Some ("failed", Some "cannot close", None, Some 300%Z)
  ∧ ∃ js r,
      journal w' = (js ++ [r; tasks w'])%list
      ∧ terminal_fields <$> (r !! "id-1")
        = Some ("completed", None, Some "Song (x).mp3", Some 200%Z).
Proof.
  apply (exit_failure_overwrites_completion (H := plain_library)
           "/srv/app/downloads" "id-1" sample_request exit_failure_run
           200%Z 300%Z queued_world (queued_task "id-1" sample_request 1%Z)
           "/srv/app/downloads/Song (x).mp3" (OtherException "cannot close"));
    try reflexivity.
  discriminate.
Defined.

Lemma rejected_percentage_fails_job_witness :
  let first :=
    (HookDict "downloading" (Some " 50.0%") (Some "00:10") (Some "1MiB/s")
       (Some "Song (x).webm") None None, 5%Z) in
  let text := "could not convert string to float: 'Unknown'" in
  perform_download (H := plain_library) "/srv/app/downloads" "id-1"
    sample_request bad_percent_run 200%Z 300%Z queued_world
  = (Return tt,
     (write (ProgressReporter.set_status "id-1" "failed" (Some text) None 300%Z)
        (call_hooks (H := plain_library) "id-1" [first] None
           (started "id-1" queued_world)).2).2)
  ∧ terminal_fields <$>
      (tasks (perform_download (H := plain_library) "/srv/app/downloads" "id-1"
                sample_request bad_percent_run 200%Z 300%Z queued_world).2
         !! "id-1")
    = Some ("failed", Some text, None, Some 300%Z).
Proof.
  intros first text.
  apply (rejected_percentage_fails_job (H := plain_library)
           "/srv/app/downloads" "id-1" sample_request bad_percent_run
           200%Z 300%Z queued_world (queued_task "id-1" sample_request 1%Z)
           [first]
           (HookDict "downloading" (Some "Unknown%") None None
              (Some "Song (x).webm") None None)
           6%Z
           [(HookDict "finished" None None None (Some "Song (x).webm") None
               None, 7%Z)]
           (OtherException text));
    try reflexivity; discriminate.
Defined.

(** ** Information about a medium *)

Lemma extract_media_info_entered run :
  info_enter run = None ->
  extract_media_info run =
    leaving (info_exit run)
      match info_result run with
      | Return info => Return (media_info_of info)
      | Raise (DownloadError msg) =>
          Raise (OtherException ("Failed to extract info: " ++ msg))
      | Raise (OtherException msg) =>
          Raise (OtherException
                   ("Failed to extract info due to an internal error: " ++ msg))
      end.
Proof.
  intros Henter. unfold extract_media_info. by rewrite Henter.
Qed.

Lemma extract_media_info_returned run media :
  extract_media_info run = Return media ->
  ∃ info, info_result run = Return info ∧ media = media_info_of info.
Proof.
  unfold extract_media_info.
  destruct (info_enter run); [done|].
  destruct (info_result run) as [info|[msg|msg]];
    destruct (info_exit run); try done.
  intros [= <-]. by exists info.
Qed.

(** X10.  The handler answers 200 with status [success], or 500 with a
    detail that starts with [Failed to extract info: ]; whatever fails,
    it answers no other status code. *)
Theorem extract_info_answers run :
  (∃ media, extract_info run = Respond 200 (InfoResponse.mk "success" media))
  ∨ (∃ detail,
       extract_info run = HTTPException 500 detail
       ∧ String.prefix "Failed to extract info: " detail = true).
Proof.
  unfold extract_info.
  destruct (extract_media_info run) as [media|e].
  - left. by exists media.
  - right. eexists. split; [reflexivity|]. apply prefix_app.
Qed.

(** X11.  When leaving the collaborator raises nothing, a failure of
    [ydl.extract_info] never leaves the service as a [DownloadError]: it
    is turned into a [ValueError] whose text already starts with
    [Failed to extract info], and the handler puts its own
    [Failed to extract info: ] before it, so the client reads the words
    twice. *)
Theorem extraction_failure_is_prefixed_twice run e :
  info_enter run = None ->
  info_result run = Raise e ->
  info_exit run = None ->
  let text :=
    match e with
    | DownloadError msg => "Failed to extract info: " ++ msg
    | OtherException msg =>
        "Failed to extract info due to an internal error: " ++ msg
    end in
  extract_media_info run = Raise (OtherException text)
  ∧ extract_info run = HTTPException 500 ("Failed to extract info: " ++ text).
Proof.
  intros Henter Hres Hexit text. unfold extract_info.
  rewrite (extract_media_info_entered _ Henter), Hres, Hexit.
  by destruct e.
Qed.

Lemma extraction_failure_is_prefixed_twice_witness :
  let run :=
    {| info_enter := None;
       info_result := Raise (DownloadError "Unsupported URL: https://example.com/");
       info_exit := None |} in
  extract_media_info run
  = Raise (OtherException
             "Failed to extract info: Unsupported URL: https://example.com/")
  ∧ extract_info run
    = HTTPException 500
        "Failed to extract info: Failed to extract info: Unsupported URL: https://example.com/".
Proof.
  intros run.
  apply (extraction_failure_is_prefixed_twice run
           (DownloadError "Unsupported URL: https://example.com/"));
    reflexivity.
Defined.

Lemma relevant_format_info f :
  relevant f = true ->
  FormatInfo.vcodec (format_info_of f) ≠ Some "none"
  ∨ (FormatInfo.acodec (format_info_of f) ≠ Some "none"
     ∧ truthy_number (FormatInfo.filesize (format_info_of f)) = true).
Proof.
  unfold relevant. intros [Hv | [Ha Hs]%andb_prop]%orb_prop.
  - left. by apply bool_decide_eq_true in Hv.
  - right. apply bool_decide_eq_true in Ha. split; [done|].
    simpl. unfold number_or. by rewrite Hs.
Qed.

(** The test of the loop, on the keys of the dictionary it reads. *)
Lemma relevant_spec f :
  relevant f = true
  ↔ fd_vcodec f ≠ Some "none"
    ∨ (fd_acodec f ≠ Some "none" ∧ truthy_number (fd_filesize f) = true).
Proof.
  unfold relevant.
  rewrite orb_true_iff, andb_true_iff, !bool_decide_eq_true. done.
Qed.

(** X12.  The formats the service lists are those of [info['formats']],
    in their order, that may carry video (['vcodec'] is not ['none']) or
    are audio with a known, non-zero ['filesize']; the test reads
    ['filesize'] itself, not ['filesize_approx'], so an audio format
    whose size is only estimated is left out.  Each listed format shows
    the keys of its dictionary, with ['format_note'] or else ['format']
    as description and ['filesize'] or else ['filesize_approx'] as
    size. *)
Theorem listed_formats_are_relevant run media :
  extract_media_info run = Return media ->
  ∃ info,
    info_result run = Return info
    ∧ MediaInfo.available_formats media
      = (fun f =>
           FormatInfo.mk (fd_format_id f) (fd_ext f) (fd_resolution f)
             (fd_vcodec f) (fd_acodec f)
             (if truthy (fd_format_note f) then fd_format_note f
              else fd_format f)
             (if truthy_number (fd_filesize f) then fd_filesize f
              else fd_filesize_approx f))
        <$> filter
              (fun f =>
                 fd_vcodec f ≠ Some "none"
                 ∨ (fd_acodec f ≠ Some "none"
                    ∧ truthy_number (fd_filesize f) = true))
              (default [] (i_formats info))
    ∧ Forall (fun fi =>
                FormatInfo.vcodec fi ≠ Some "none"
                ∨ (FormatInfo.acodec fi ≠ Some "none"
                   ∧ truthy_number (FormatInfo.filesize fi) = true))
        (MediaInfo.available_formats media)
    ∧ (length (MediaInfo.available_formats media)
       <= length (default [] (i_formats info)))%nat.
Proof.
  intros (info & Hres & ->)%extract_media_info_returned.
  exists info. split; [done|].
  assert (relevant_formats info
          = format_info_of <$> filter relevant (default [] (i_formats info)))
    as Hlist.
  { unfold relevant_formats. by destruct (i_formats info) as [[|f formats]|]. }
  simpl. rewrite Hlist. split; [|split].
  - f_equal. apply list_filter_iff. intros f.
    rewrite <- relevant_spec. by destruct (relevant f).
  - apply Forall_fmap, Forall_forall. intros g Hg.
    apply list_elem_of_filter in Hg as [Hg _].
    apply relevant_format_info. by destruct (relevant g).
  - rewrite length_fmap. apply length_filter.
Qed.

Lemma listed_formats_are_relevant_witness :
  let run :=
    {| info_enter := None; info_result := Return sample_info;
       info_exit := None |} in
  ∃ media,
    extract_media_info run = Return media
    ∧ FormatInfo.format_id <$> MediaInfo.available_formats media
      = [Some "22"; Some "140"]
    ∧ Forall (fun fi =>
                FormatInfo.vcodec fi ≠ Some "none"
                ∨ (FormatInfo.acodec fi ≠ Some "none"
                   ∧ truthy_number (FormatInfo.filesize fi) = true))
        (MediaInfo.available_formats media).
Proof.
  intros run. eexists. split; [reflexivity|]. split; [reflexivity|].
  destruct (listed_formats_are_relevant run (media_info_of sample_info) eq_refl)
    as (info & _ & _ & Hall & _).
  exact Hall.
Defined.

(** X13.  [is_playlist] and [playlist_count] agree: either the medium is
    a playlist and the count is at least one, or it is none and there is
    no count. *)
Theorem playlist_fields_agree run media :
  extract_media_info run = Return media ->
  (MediaInfo.is_playlist media = Some true
   ∧ ∃ n, MediaInfo.playlist_count media = Some (Z.of_nat (S n)))
  ∨ (MediaInfo.is_playlist media = Some false
     ∧ MediaInfo.playlist_count media = None).
Proof.
  intros (info & _ & ->)%extract_media_info_returned. simpl.
  destruct (i_entries info) as [[|entry entries]|]; simpl.
  - by right.
  - left. split; [done|]. by exists (length entries).
  - by right.
Qed.

Lemma playlist_fields_agree_witness :
  let run :=
    {| info_enter := None; info_result := Return sample_info;
       info_exit := None |} in
  (MediaInfo.is_playlist (media_info_of sample_info) = Some true
   ∧ ∃ n, MediaInfo.playlist_count (media_info_of sample_info)
          = Some (Z.of_nat (S n)))
  ∨ (MediaInfo.is_playlist (media_info_of sample_info) = Some false
     ∧ MediaInfo.playlist_count (media_info_of sample_info) = None).
Proof.
  intros run. apply (playlist_fields_agree run). reflexivity.
Defined.

(** ** The options of the collaborator *)

(** Decides the tests that are left in [ydl_opts_of] and evaluates the
    lookups. *)
Ltac decide_opts :=
  unfold audio_opts, image_opts, video_opts, default_opts;
  repeat match goal with
         | |- context [if ?b then _ else _] => destruct b
         end;
  repeat split; vm_compute; reflexivity.

Lemma truthy_Some s : s ≠ "" -> truthy (Some s) = true.
Proof. by destruct s. Qed.

(** X14.  The request never reaches the settings of the run itself: the
    output template under the download directory, the progress hook, the
    place of ffmpeg (the environment variable, or [ffmpeg] when it is
    unset or empty), five retries, a socket timeout of 30, quiet
    operation and embedded metadata are the same for every request. *)
Theorem fixed_options ffmpeg_env DOWNLOAD_DIR request :
  let ydl_opts := ydl_opts_of ffmpeg_env DOWNLOAD_DIR request in
  ydl_opts !! "outtmpl" = Some (OStr (path_join DOWNLOAD_DIR output_template))
  ∧ ydl_opts !! "progress_hooks" = Some OHooks
  ∧ ydl_opts !! "ffmpeg_location"
    = Some (OStr (if truthy ffmpeg_env then default "ffmpeg" ffmpeg_env
                  else "ffmpeg"))
  ∧ ydl_opts !! "retries" = Some (OInt 5)
  ∧ ydl_opts !! "socket_timeout" = Some (OInt 30)
  ∧ ydl_opts !! "quiet" = Some (OBool true)
  ∧ ydl_opts !! "no_warnings" = Some (OBool true)
  ∧ ydl_opts !! "embed_metadata" = Some (OBool true)
  ∧ ydl_opts !! "logger" = Some (OLogger "yt_dlp").
Proof.
  intros ydl_opts. subst ydl_opts.
  set (ffmpeg_path :=
         if truthy ffmpeg_env then default "ffmpeg" ffmpeg_env else "ffmpeg").
  set (tmpl := path_join DOWNLOAD_DIR output_template).
  assert (outtmpl DOWNLOAD_DIR = tmpl) as Htmpl by done.
  unfold ydl_opts_of. fold ffmpeg_path. unfold audio_opts. rewrite !Htmpl.
  unfold image_opts, default_opts. rewrite !Htmpl.
  clearbody ffmpeg_path tmpl. decide_opts.
Qed.

(** X15.  A format name that does not contain [audio] and is not [image]
    is taken as the container of a video, whatever it is ([mp3]
    included): the selector is the quality followed by
    [+bestaudio/bestvideo+bestaudio/best], the name itself becomes
    [merge_output_format], and no audio extraction, thumbnail or skipped
    download is asked for. *)
Theorem video_request_options ffmpeg_env DOWNLOAD_DIR request format quality :
  DownloadRequest.format request = Some format ->
  DownloadRequest.quality request = Some quality ->
  format ≠ "" ->
  quality ≠ "" ->
  contains "audio" (lower format) = false ->
  lower format ≠ "image" ->
  let ydl_opts := ydl_opts_of ffmpeg_env DOWNLOAD_DIR request in
  ydl_opts !! "format"
  = Some (OStr (quality ++ "+bestaudio/bestvideo+bestaudio/best"))
  ∧ ydl_opts !! "merge_output_format" = Some (OStr format)
  ∧ ydl_opts !! "postprocessors" = None
  ∧ ydl_opts !! "extract_audio" = None
  ∧ ydl_opts !! "skip_download" = None
  ∧ ydl_opts !! "writethumbnail" = None.
Proof.
  intros Hf Hq Hfne Hqne Haudio Himage ydl_opts. subst ydl_opts.
  unfold ydl_opts_of.
  rewrite Hf, Hq, (truthy_Some _ Hfne), (truthy_Some _ Hqne). simpl.
  apply String.eqb_neq in Himage. rewrite Haudio, Himage.
  unfold video_opts, default_opts.
  generalize (quality ++ "+bestaudio/bestvideo+bestaudio/best") as selector.
  intros selector. decide_opts.
Qed.

Lemma video_request_options_witness :
  let ydl_opts :=
    ydl_opts_of None "/srv/app/downloads"
      (DownloadRequest.mk "https://example.com/video1" (Some "mp3")
         (Some "bestaudio") None None) in
  ydl_opts !! "format"
  = Some (OStr "bestaudio+bestaudio/bestvideo+bestaudio/best")
  ∧ ydl_opts !! "merge_output_format" = Some (OStr "mp3")
  ∧ ydl_opts !! "postprocessors" = None
  ∧ ydl_opts !! "extract_audio" = None
  ∧ ydl_opts !! "skip_download" = None
  ∧ ydl_opts !! "writethumbnail" = None.
Proof.
  apply (video_request_options None "/srv/app/downloads"
           (DownloadRequest.mk "https://example.com/video1" (Some "mp3")
              (Some "bestaudio") None None) "mp3" "bestaudio");
    try reflexivity; discriminate.
Defined.

(** X16.  A format name that contains [audio], in any case of the
    letters, makes an audio request: the quality is the selector as it
    is, extraction to mp3 at 192 is asked for, and there is no
    [merge_output_format]. *)
Theorem audio_request_options ffmpeg_env DOWNLOAD_DIR request format quality :
  DownloadRequest.format request = Some format ->
  DownloadRequest.quality request = Some quality ->
  quality ≠ "" ->
  contains "audio" (lower format) = true ->
  let ydl_opts := ydl_opts_of ffmpeg_env DOWNLOAD_DIR request in
  ydl_opts !! "format" = Some (OStr quality)
  ∧ ydl_opts !! "merge_output_format" = None
  ∧ ydl_opts !! "extract_audio" = Some (OBool true)
  ∧ ydl_opts !! "audio_format" = Some (OStr "mp3")
  ∧ ydl_opts !! "audio_quality" = Some (OStr "192K")
  ∧ ydl_opts !! "postprocessors" = Some (ODicts [extract_audio_processor])
  ∧ extract_audio_processor !! "key" = Some "FFmpegExtractAudio"
  ∧ extract_audio_processor !! "preferredcodec" = Some "mp3"
  ∧ extract_audio_processor !! "preferredquality" = Some "192".
Proof.
  intros Hf Hq Hqne Haudio ydl_opts. subst ydl_opts.
  assert (format ≠ "") as Hfne by (intros ->; discriminate Haudio).
  unfold ydl_opts_of.
  rewrite Hf, Hq, (truthy_Some _ Hfne), (truthy_Some _ Hqne). simpl.
  rewrite Haudio. split; [|split; [|split; [|split; [|split; [|split]]]]];
    try (unfold audio_opts, default_opts;
         generalize (outtmpl DOWNLOAD_DIR) as tmpl; intros tmpl;
         generalize extract_audio_processor as processor; intros processor;
         decide_opts).
  repeat split; vm_compute; reflexivity.
Qed.

Lemma audio_request_options_witness :
  let ydl_opts := ydl_opts_of None "/srv/app/downloads" sample_request in
  ydl_opts !! "format" = Some (OStr "bestaudio/best")
  ∧ ydl_opts !! "merge_output_format" = None
  ∧ ydl_opts !! "extract_audio" = Some (OBool true)
  ∧ ydl_opts !! "audio_format" = Some (OStr "mp3")
  ∧ ydl_opts !! "audio_quality" = Some (OStr "192K")
  ∧ ydl_opts !! "postprocessors" = Some (ODicts [extract_audio_processor])
  ∧ extract_audio_processor !! "key" = Some "FFmpegExtractAudio"
  ∧ extract_audio_processor !! "preferredcodec" = Some "mp3"
  ∧ extract_audio_processor !! "preferredquality" = Some "192".
Proof.
  apply (audio_request_options None "/srv/app/downloads" sample_request
           "audio" "bestaudio/best");
    try reflexivity; discriminate.
Defined.

(** X17.  The format [image], in any case of the letters, asks for the
    thumbnail only: the download is skipped, the selector is [best] and
    the quality of the request is not used. *)
Theorem image_request_options ffmpeg_env DOWNLOAD_DIR request format quality :
  DownloadRequest.format request = Some format ->
  DownloadRequest.quality request = Some quality ->
  quality ≠ "" ->
  lower format = "image" ->
  let ydl_opts := ydl_opts_of ffmpeg_env DOWNLOAD_DIR request in
  ydl_opts !! "format" = Some (OStr "best")
  ∧ ydl_opts !! "skip_download" = Some (OBool true)
  ∧ ydl_opts !! "writethumbnail" = Some (OBool true)
  ∧ ydl_opts !! "merge_output_format" = None
  ∧ ydl_opts !! "postprocessors" = None.
Proof.
  intros Hf Hq Hqne Himage ydl_opts. subst ydl_opts.
  assert (format ≠ "") as Hfne by (intros ->; discriminate Himage).
  unfold ydl_opts_of.
  rewrite Hf, Hq, (truthy_Some _ Hfne), (truthy_Some _ Hqne). simpl.
  rewrite Himage.
  replace (contains "audio" "image") with false by reflexivity.
  rewrite String.eqb_refl. unfold image_opts, default_opts.
  generalize (outtmpl DOWNLOAD_DIR) as tmpl. intros tmpl. decide_opts.
Qed.

Lemma image_request_options_witness :
  let ydl_opts :=
    ydl_opts_of None "/srv/app/downloads"
      (DownloadRequest.mk "https://example.com/video1" (Some "Image")
         (Some "bestvideo[height<=720]") None None) in
  ydl_opts !! "format" = Some (OStr "best")
  ∧ ydl_opts !! "skip_download" = Some (OBool true)
  ∧ ydl_opts !! "writethumbnail" = Some (OBool true)
  ∧ ydl_opts !! "merge_output_format" = None
  ∧ ydl_opts !! "postprocessors" = None.
Proof.
  apply (image_request_options None "/srv/app/downloads"
           (DownloadRequest.mk "https://example.com/video1" (Some "Image")
              (Some "bestvideo[height<=720]") None None)
           "Image" "bestvideo[height<=720]");
    try reflexivity; discriminate.
Defined.

(** X18.  A request that lacks the format or the quality (absent or
    empty) runs with the defaults: the one that is given is not used,
    the selector is [bestvideo+bestaudio/best] and the container mp4. *)
Theorem incomplete_request_options ffmpeg_env DOWNLOAD_DIR request :
  truthy (DownloadRequest.format request) = false
  ∨ truthy (DownloadRequest.quality request) = false ->
  let ydl_opts := ydl_opts_of ffmpeg_env DOWNLOAD_DIR request in
  ydl_opts !! "format" = Some (OStr "bestvideo+bestaudio/best")
  ∧ ydl_opts !! "merge_output_format" = Some (OStr "mp4")
  ∧ ydl_opts !! "postprocessors" = None
  ∧ ydl_opts !! "extract_audio" = None
  ∧ ydl_opts !! "skip_download" = None.
Proof.
  intros Hmissing ydl_opts. subst ydl_opts.
  assert (truthy (DownloadRequest.format request)
          && truthy (DownloadRequest.quality request) = false) as Hboth.
  { destruct Hmissing as [-> | ->]; [done|apply andb_false_r]. }
  unfold ydl_opts_of. rewrite Hboth. unfold default_opts.
  generalize (outtmpl DOWNLOAD_DIR) as tmpl. intros tmpl.
  generalize (if truthy ffmpeg_env then default "ffmpeg" ffmpeg_env
              else "ffmpeg") as ffmpeg_path.
  intros ffmpeg_path. decide_opts.
Qed.

Lemma incomplete_request_options_witness :
  let ydl_opts :=
    ydl_opts_of None "/srv/app/downloads"
      (DownloadRequest.mk "https://example.com/video1" None
         (Some "bestaudio/best") None None) in
  ydl_opts !! "format" = Some (OStr "bestvideo+bestaudio/best")
  ∧ ydl_opts !! "merge_output_format" = Some (OStr "mp4")
  ∧ ydl_opts !! "postprocessors" = None
  ∧ ydl_opts !! "extract_audio" = None
  ∧ ydl_opts !! "skip_download" = None.
Proof.
  apply (incomplete_request_options None "/srv/app/downloads"
           (DownloadRequest.mk "https://example.com/video1" None
              (Some "bestaudio/best") None None)).
  left. reflexivity.
Defined.

(** X19.  The cookies of a browser and the proxy are handed on exactly
    when the request names them with a non-empty string: the browser as a
    one-element tuple, the proxy as it is; otherwise the keys are
    absent. *)
Theorem cookies_and_proxy_options ffmpeg_env DOWNLOAD_DIR request :
  let ydl_opts := ydl_opts_of ffmpeg_env DOWNLOAD_DIR request in
  ydl_opts !! "cookiesfrombrowser"
  = (if truthy (DownloadRequest.browserForCookies request)
     then (fun browser => OTuple [browser])
            <$> DownloadRequest.browserForCookies request
     else None)
  ∧ ydl_opts !! "proxy"
    = (if truthy (DownloadRequest.proxy request)
       then OStr <$> DownloadRequest.proxy request
       else None).
Proof.
  intros ydl_opts. subst ydl_opts.
  unfold ydl_opts_of, audio_opts, image_opts, video_opts, default_opts.
  generalize (outtmpl DOWNLOAD_DIR) as tmpl. intros tmpl.
  generalize (if truthy ffmpeg_env then default "ffmpeg" ffmpeg_env
              else "ffmpeg") as ffmpeg_path.
  intros ffmpeg_path.
  destruct (DownloadRequest.browserForCookies request) as [[|cb browser]|];
    destruct (DownloadRequest.proxy request) as [[|cp proxy]|];
    simpl truthy; cbn [fmap option_fmap option_map default];
    unfold audio_opts, image_opts, video_opts, default_opts;
    repeat match goal with
           | |- context [if ?b then _ else _] => destruct b
           end;
    split; vm_compute; reflexivity.
Qed.

(** ** Submission, then a poll *)

(** X20.  A body with a URL that validation accepts is answered 202 with
    the id drawn and the address of its status socket; a poll made at
    once answers the queued record, which holds the validated URL and the
    fields of the body, with [mp4] and [bestvideo+bestaudio/best] for the
    keys that are absent; one background unit is scheduled, for that
    request. *)
Theorem post_start_accepts `{Library} uuid4 now body w raw u :
  StartBody.url body = Some raw ->
  http_url raw = Some u ->
  u ≠ "" ->
  let request :=
    DownloadRequest.mk u
      (default (Some "mp4") (StartBody.format body))
      (default (Some "bestvideo+bestaudio/best") (StartBody.quality body))
      (default None (StartBody.browserForCookies body))
      (default None (StartBody.proxy body)) in
  ∃ w',
    post_start uuid4 now body w
    = (Respond 202
         (DownloadInitiatedResponse.mk "accepted" "Download initiated" uuid4
            ("/ws/status/" ++ uuid4)),
       w')
    ∧ status_endpoint uuid4 w'
      = Respond 200
          (DownloadStatusResponse.mk "queued" (queued_task uuid4 request now))
    ∧ scheduled w' = (scheduled w ++ [(uuid4, request)])%list.
Proof.
  intros Hraw Hu Hne request.
  unfold post_start, validate_request. rewrite Hraw. simpl. rewrite Hu. simpl.
  fold request. unfold start_download.
  assert (String.eqb (DownloadRequest.url request) "" = false) as ->.
  { by apply String.eqb_neq. }
  rewrite initiate_download_task_eq.
  eexists. split; [reflexivity|]. split; [|reflexivity].
  unfold status_endpoint, get_download_status. simpl.
  by rewrite lookup_insert_eq.
Qed.

Lemma post_start_accepts_witness :
  let request :=
    DownloadRequest.mk "https://example.com/video1" (Some "mp4")
      (Some "bestvideo+bestaudio/best") None None in
  ∃ w',
    post_start (H := plain_library) "id-1" 1%Z
      (StartBody.mk (Some "https://example.com/video1") None None None None)
      (World ∅ [] [])
    = (Respond 202
         (DownloadInitiatedResponse.mk "accepted" "Download initiated" "id-1"
            "/ws/status/id-1"),
       w')
    ∧ status_endpoint "id-1" w'
      = Respond 200
          (DownloadStatusResponse.mk "queued" (queued_task "id-1" request 1%Z))
    ∧ scheduled w' = [("id-1", request)].
Proof.
  intros request.
  apply (post_start_accepts (H := plain_library) "id-1" 1%Z
           (StartBody.mk (Some "https://example.com/video1") None None None None)
           (World ∅ [] []) "https://example.com/video1"
           "https://example.com/video1");
    try reflexivity; discriminate.
Defined.

(** ** The first version of the service *)

Lemma legacy_error_result e :
  ∃ message,
    Legacy.error_result e !! "status" = Some (Legacy.VStr "error")
    ∧ Legacy.error_result e !! "message" = Some (Legacy.VStr message)
    ∧ Legacy.error_result e !! "filepath" = None
    ∧ message ≠ ""
    ∧ Nat.eqb (size (Legacy.error_result e)) 0 = false.
Proof.
  destruct e as [msg|msg]; eexists; repeat split; try reflexivity;
    discriminate.
Qed.

Lemma legacy_success_result info filepath :
  Legacy.success_result info filepath !! "status" = Some (Legacy.VStr "success")
  ∧ Legacy.success_result info filepath !! "filepath"
    = Some (Legacy.VStr filepath)
  ∧ Nat.eqb (size (Legacy.success_result info filepath)) 0 = false.
Proof. repeat split; reflexivity. Qed.

(** The two shapes of what [download_video] returns. *)
Lemma legacy_download_video_cases run :
  Legacy.dir_exists run = true ∨ Legacy.makedirs run = None ->
  (∃ e, Legacy.download_video run = Return (Legacy.error_result e))
  ∨ (∃ info filepath,
       Legacy.download_video run
       = Return (Legacy.success_result info filepath)
       ∧ Legacy.prepared run = Return filepath).
Proof.
  intros Hdir. unfold Legacy.download_video.
  assert ((if Legacy.dir_exists run then None else Legacy.makedirs run) = None)
    as ->.
  { destruct Hdir as [-> | ->]; [done|by destruct (Legacy.dir_exists run)]. }
  destruct (Legacy.enter run) as [e|]; [left; by exists e|].
  unfold Legacy.extract_and_prepare.
  destruct (Legacy.leave run) as [e|]; [left; by exists e|]. simpl.
  destruct (Legacy.extracted run) as [info|e]; [|left; by exists e].
  destruct (Legacy.prepared run) as [filepath|e]; [|left; by exists e].
  right. by exists info, filepath.
Qed.

(** X21.  Once the download directory is there, [download_video] raises
    nothing: whatever the collaborator does, it returns a dictionary that
    is a success with the full path [prepare_filename] answered, or an
    error whose message is never empty and which carries no file path. *)
Theorem legacy_download_video_returns run :
  Legacy.dir_exists run = true ∨ Legacy.makedirs run = None ->
  ∃ result,
    Legacy.download_video run = Return result
    ∧ ((result !! "status" = Some (Legacy.VStr "success")
        ∧ ∃ filepath,
            Legacy.prepared run = Return filepath
            ∧ result !! "filepath" = Some (Legacy.VStr filepath))
       ∨ (result !! "status" = Some (Legacy.VStr "error")
          ∧ result !! "filepath" = None
          ∧ ∃ message,
              result !! "message" = Some (Legacy.VStr message)
              ∧ message ≠ "")).
Proof.
  intros Hdir.
  destruct (legacy_download_video_cases run Hdir)
    as [[e ->] | (info & filepath & -> & Hp)]; eexists; (split; [done|]).
  - right. destruct (legacy_error_result e) as (m & ? & ? & ? & ? & _).
    eauto 6.
  - left. destruct (legacy_success_result info filepath) as (? & ? & _).
    eauto.
Qed.

Lemma legacy_download_video_returns_witness :
  let run :=
    {| Legacy.dir_exists := true; Legacy.makedirs := None;
       Legacy.enter := None;
       Legacy.extracted := Raise (OtherException "");
       Legacy.prepared := Return "downloads/Song (x).mp4";
       Legacy.leave := None |} in
  ∃ result,
    Legacy.download_video run = Return result
    ∧ ((result !! "status" = Some (Legacy.VStr "success")
        ∧ ∃ filepath,
            Legacy.prepared run = Return filepath
            ∧ result !! "filepath" = Some (Legacy.VStr filepath))
       ∨ (result !! "status" = Some (Legacy.VStr "error")
          ∧ result !! "filepath" = None
          ∧ ∃ message,
              result !! "message" = Some (Legacy.VStr message)
              ∧ message ≠ "")).
Proof.
  intros run. apply (legacy_download_video_returns run). left. reflexivity.
Defined.

(** [perform_download_task] on the two shapes. *)
Lemma legacy_task_after_error task_id run tasks t e :
  tasks !! task_id = Some t ->
  Legacy.download_video run = Return (Legacy.error_result e) ->
  ∃ message,
    message ≠ ""
    ∧ Legacy.perform_download_task task_id run tasks
      = (Return tt,
         <[task_id :=
             Legacy.Task "failed" (Legacy.info t) (Legacy.filepath t)
               (Legacy.VStr message)]>
           (<[task_id :=
                Legacy.Task "downloading" (Legacy.info t) (Legacy.filepath t)
                  (Legacy.error t)]> tasks)).
Proof.
  intros Ht Hrun.
  destruct (legacy_error_result e) as (m & Hs & Hm & _ & Hne & Hsize).
  exists m. split; [done|].
  unfold Legacy.perform_download_task. rewrite Ht, Hrun.
  cbv beta zeta. rewrite Hsize, Hs, Hm. reflexivity.
Qed.

Lemma legacy_task_after_success task_id run tasks t info filepath :
  tasks !! task_id = Some t ->
  Legacy.download_video run = Return (Legacy.success_result info filepath) ->
  Legacy.perform_download_task task_id run tasks
  = (Return tt,
     <[task_id :=
         Legacy.Task "completed"
           (Some (delete "filepath" (Legacy.success_result info filepath)))
           (Some (basename filepath)) (Legacy.error t)]>
       (<[task_id :=
            Legacy.Task "completed"
              (Some (delete "filepath" (Legacy.success_result info filepath)))
              (Legacy.filepath t) (Legacy.error t)]>
          (<[task_id :=
               Legacy.Task "downloading" (Legacy.info t) (Legacy.filepath t)
                 (Legacy.error t)]> tasks))).
Proof.
  intros Ht Hrun.
  destruct (legacy_success_result info filepath) as (Hs & Hf & Hsize).
  unfold Legacy.perform_download_task. rewrite Ht, Hrun.
  cbv beta zeta. rewrite Hsize, Hs, Hf. reflexivity.
Qed.

(** X22.  The thread of a known task, once the download directory is
    there, raises nothing and ends the task in one of two shapes:
    completed, with the base name of the file as its path and with
    metadata that has no ['filepath'] entry; or failed, with a message
    that is not empty.  The other tasks are as before. *)
Theorem legacy_task_ends task_id run tasks t :
  tasks !! task_id = Some t ->
  Legacy.dir_exists run = true ∨ Legacy.makedirs run = None ->
  ∃ tasks' t',
    Legacy.perform_download_task task_id run tasks = (Return tt, tasks')
    ∧ tasks' !! task_id = Some t'
    ∧ (∀ other, other ≠ task_id -> tasks' !! other = tasks !! other)
    ∧ ((Legacy.status t' = "completed"
        ∧ ∃ metadata name,
            Legacy.info t' = Some metadata
            ∧ metadata !! "filepath" = None
            ∧ metadata !! "status" = Some (Legacy.VStr "success")
            ∧ Legacy.filepath t' = Some name
            ∧ has_char sep name = false)
       ∨ (Legacy.status t' = "failed"
          ∧ ∃ message,
              Legacy.error t' = Legacy.VStr message ∧ message ≠ "")).
Proof.
  intros Ht Hdir.
  destruct (legacy_download_video_cases run Hdir)
    as [[e Hrun] | (info & filepath & Hrun & _)].
  - destruct (legacy_task_after_error task_id run tasks t e Ht Hrun)
      as (m & Hne & ->).
    eexists _, _. split; [reflexivity|].
    split; [apply lookup_insert_eq|]. split.
    + intros other Hother. by rewrite !lookup_insert_ne.
    + right. split; [done|]. by exists m.
  - rewrite (legacy_task_after_success task_id run tasks t info filepath Ht Hrun).
    eexists _, _. split; [reflexivity|].
    split; [apply lookup_insert_eq|]. split.
    + intros other Hother. by rewrite !lookup_insert_ne.
    + left. split; [done|]. eexists _, _.
      split; [done|]. split; [apply lookup_delete_eq|].
      split; [reflexivity|]. split; [done|]. apply basename_no_sep.
Qed.

Lemma legacy_task_ends_witness :
  let run :=
    {| Legacy.dir_exists := true; Legacy.makedirs := None;
       Legacy.enter := None;
       Legacy.extracted := Return sample_info;
       Legacy.prepared := Return "downloads/Song (x).mp4";
       Legacy.leave := None |} in
  let tasks : gmap string Legacy.task := {[ "t1" := Legacy.pending ]} in
  ∃ tasks' t',
    Legacy.perform_download_task "t1" run tasks = (Return tt, tasks')
    ∧ tasks' !! "t1" = Some t'
    ∧ (∀ other, other ≠ "t1" -> tasks' !! other = tasks !! other)
    ∧ ((Legacy.status t' = "completed"
        ∧ ∃ metadata name,
            Legacy.info t' = Some metadata
            ∧ metadata !! "filepath" = None
            ∧ metadata !! "status" = Some (Legacy.VStr "success")
            ∧ Legacy.filepath t' = Some name
            ∧ has_char sep name = false)
       ∨ (Legacy.status t' = "failed"
          ∧ ∃ message,
              Legacy.error t' = Legacy.VStr message ∧ message ≠ "")).
Proof.
  intros run tasks.
  apply (legacy_task_ends "t1" run tasks Legacy.pending).
  - reflexivity.
  - left. reflexivity.
Defined.

(** X23.  After the thread of a task has run, a status query is answered
    200, and neither the metadata nor the download link of the answer
    holds the path on the server: the metadata under ['info'] has no
    ['filepath'] entry, and ['download_link'] is [/downloaded/] followed
    by a name without separator.  (Nothing is said of the ['error'] text
    of a failed task, which is the message of the exception.) *)
Theorem legacy_response_hides_server_path task_id run tasks t :
  tasks !! task_id = Some t ->
  Legacy.dir_exists run = true ∨ Legacy.makedirs run = None ->
  let answer :=
    Legacy.get_download_status task_id
      (Legacy.perform_download_task task_id run tasks).2 in
  answer.1 = 200%Z
  ∧ (∀ metadata,
       answer.2 !! "info" = Some (Legacy.JInfo (Some metadata)) ->
       metadata !! "filepath" = None)
  ∧ (∀ link,
       answer.2 !! "download_link" = Some (Legacy.JStr link) ->
       ∃ name, link = "/downloaded/" ++ name ∧ has_char sep name = false).
Proof.
  intros Ht Hdir answer. subst answer.
  destruct (legacy_download_video_cases run Hdir)
    as [[e Hrun] | (info & filepath & Hrun & _)].
  - destruct (legacy_task_after_error task_id run tasks t e Ht Hrun)
      as (m & Hne & ->).
    unfold Legacy.get_download_status. cbn [snd].
    rewrite lookup_insert_eq. cbn.
    split; [done|]. split; intros x Hx; vm_compute in Hx; discriminate Hx.
  - rewrite (legacy_task_after_success task_id run tasks t info filepath Ht Hrun).
    unfold Legacy.get_download_status. cbn [snd].
    rewrite lookup_insert_eq.
    change (String.eqb (Legacy.status _) "completed") with true.
    cbv beta iota zeta. cbn [fst snd].
    split; [done|]. split.
    + intros metadata Hm. rewrite lookup_insert_eq in Hm.
      injection Hm as <-. apply lookup_delete_eq.
    + intros link Hl. rewrite lookup_insert_ne in Hl by done.
      rewrite lookup_insert_eq in Hl. injection Hl as <-.
      eexists. split; [reflexivity|]. apply basename_no_sep.
Qed.

Lemma legacy_response_hides_server_path_witness :
  let run :=
    {| Legacy.dir_exists := true; Legacy.makedirs := None;
       Legacy.enter := None;
       Legacy.extracted := Return sample_info;
       Legacy.prepared := Return "downloads/Song (x).mp4";
       Legacy.leave := None |} in
  let answer :=
    Legacy.get_download_status "t1"
      (Legacy.perform_download_task "t1" run {[ "t1" := Legacy.pending ]}).2 in
  answer.2 !! "download_link" = Some (Legacy.JStr "/downloaded/Song (x).mp4")
  ∧ answer.1 = 200%Z
  ∧ (∀ metadata,
       answer.2 !! "info" = Some (Legacy.JInfo (Some metadata)) ->
       metadata !! "filepath" = None)
  ∧ (∀ link,
       answer.2 !! "download_link" = Some (Legacy.JStr link) ->
       ∃ name, link = "/downloaded/" ++ name ∧ has_char sep name = false).
Proof.
  intros run answer. split; [reflexivity|].
  apply (legacy_response_hides_server_path "t1" run
           {[ "t1" := Legacy.pending ]} Legacy.pending).
  - reflexivity.
  - left. reflexivity.
Defined.

(** X24.  The first version asks only for the key: a body that has a
    ['url'] entry, whatever its value, the empty string included, is
    answered 202; a pending task is stored under the id drawn, a poll of
    it answers [pending], and one thread is started with the value and
    with the selector [bestaudio/best] exactly for the format
    [audio]. *)
Theorem legacy_start_takes_any_url uuid4 d w video_url :
  d !! "url" = Some video_url ->
  ∃ body,
    Legacy.start_download uuid4 (Some d) w
    = ((202%Z, body),
       Legacy.World (<[uuid4 := Legacy.pending]> (Legacy.download_tasks w))
         (Legacy.threads w
            ++ [(uuid4, video_url,
                 match d !! "format" with
                 | Some (Legacy.VStr "audio") => "bestaudio/best"
                 | _ => "bestvideo+bestaudio/best"
                 end)]))
    ∧ body !! "task_id" = Some (Legacy.JStr uuid4)
    ∧ body !! "status_check_url" = Some (Legacy.JStr ("/status/" ++ uuid4))
    ∧ (Legacy.get_download_status uuid4
         (<[uuid4 := Legacy.pending]> (Legacy.download_tasks w))).2 !! "status"
      = Some (Legacy.JStr "pending").
Proof.
  intros Hurl.
  assert (Nat.eqb (size d) 0 = false) as Hsize.
  { apply Nat.eqb_neq. intros Hzero. apply map_size_empty_iff in Hzero.
    subst d. by rewrite lookup_empty in Hurl. }
  unfold Legacy.start_download. rewrite Hsize, Hurl.
  eexists. split.
  - f_equal. f_equal. f_equal. f_equal. f_equal.
    destruct (d !! "format") as [[|s|n]|]; reflexivity.
  - split; [reflexivity|]. split; [reflexivity|].
    unfold Legacy.get_download_status. rewrite lookup_insert_eq.
    reflexivity.
Qed.

Lemma legacy_start_takes_any_url_witness :
  ∃ body,
    Legacy.start_download "t1" (Some {[ "url" := Legacy.VStr "" ]})
      (Legacy.World ∅ [])
    = ((202%Z, body),
       Legacy.World (<[ "t1" := Legacy.pending]> ∅)
         [("t1", Legacy.VStr "", "bestvideo+bestaudio/best")])
    ∧ body !! "task_id" = Some (Legacy.JStr "t1")
    ∧ body !! "status_check_url" = Some (Legacy.JStr "/status/t1")
    ∧ (Legacy.get_download_status "t1" (<[ "t1" := Legacy.pending]> ∅)).2
        !! "status"
      = Some (Legacy.JStr "pending").
Proof.
  exact (legacy_start_takes_any_url "t1" {[ "url" := Legacy.VStr "" ]}
           (Legacy.World ∅ []) (Legacy.VStr "") eq_refl).
Defined.
